(** * did-siop: key extraction, DID resolution chain and the Provider's
      signing-information set

    A shallow embedding of three source units of the library:

    - the chain of [DidVerificationKeyExtractor]s ending in [uniExtractor]
      (key extraction from a DID-document verification method);
    - [CombinedDidResolver.resolveDidDocumet] (Identity/Resolvers/index.ts);
    - the [Provider] class: [addSigningParams], [removeSigningParams],
      [generateResponse] and [generateResponseWithVPData].

    JavaScript exceptions are values of [Result]; object state that a method
    mutates is passed in and returned explicitly.  Collaborators that live
    outside these units (string case mapping, the checksum-address package,
    the JWK helpers, key construction, [checkKeyPair], the response builder,
    the concrete resolvers) are Section variables: every theorem holds for
    whatever they compute.  The value of [Math.random()] is an argument, a
    double, and its product with the array length is the rounded product of
    doubles. *)

From Stdlib Require Import String List Bool Arith ZArith QArith Qround Lia.
Import ListNotations.
Open Scope string_scope.
Open Scope list_scope.

(** ** Failures and fallible computations *)

(** The messages passed to [new Error(...)].  The first four come from the
    [ERRORS] table of Identity/commons, the next three from the [ERRORS] table
    of the provider; [Thrown] stands for an error raised by a collaborator. *)
Inductive Error : Type :=
| NO_MATCHING_PUBLIC_KEY
| UNSUPPORTED_PUBLIC_KEY_METHOD
| UNSUPPORTED_KEY_FORMAT
| DOCUMENT_RESOLUTION_ERROR
| NO_SIGNING_INFO
| UNRESOLVED_IDENTITY
| NO_PUBLIC_KEY
| Thrown (msg : string).

Inductive Result (A : Type) : Type :=
| Ok (a : A)
| Throw (e : Error).

Arguments Ok {A} a.
Arguments Throw {A} e.

Definition bind {A B : Type} (c : Result A) (k : A -> Result B) : Result B :=
  match c with
  | Ok a => k a
  | Throw e => Throw e
  end.

Notation "x <- c ;; k" := (bind c (fun x => k))
  (at level 61, c at next level, right associativity).

(** ** Enumerations of globals.ts *)

(** Modelled from the spec: the enumerations [KTYS], [ALGORITHMS] and
    [KEY_FORMATS] of globals.ts, which is not among the sources.  The members
    are those the sources name ([KTYS.RSA], [ALGORITHMS["ES256K-R"]],
    [KEY_FORMATS.ETHEREUM_ADDRESS], ...), the README's list of supported
    algorithms and the spec's data model.  [KtyOther] stands for any member of
    [KTYS] besides RSA, EC and OKP, which [addSigningParams] sends to its
    [default] branch. *)
Inductive KTYS : Type := RSA | EC | OKP | KtyOther (name : string).

Inductive ALGORITHMS : Type :=
| RS256 | RS384 | RS512 | PS256 | PS384 | PS512
| ES256 | ES384 | ES512 | ES256K | ES256K_R | EdDSA.

Inductive KEY_FORMATS : Type :=
| PKCS8_PEM | PKCS1_PEM | HEX | BASE58 | BASE64 | JWK | ETHEREUM_ADDRESS | ADDRESS.

Definition KEY_FORMATS_eqb (a b : KEY_FORMATS) : bool :=
  match a, b with
  | PKCS8_PEM, PKCS8_PEM | PKCS1_PEM, PKCS1_PEM | HEX, HEX | BASE58, BASE58
  | BASE64, BASE64 | JWK, JWK | ETHEREUM_ADDRESS, ETHEREUM_ADDRESS
  | ADDRESS, ADDRESS => true
  | _, _ => false
  end.

(** ** Verification methods and extracted keys *)

(** A JWK is a JSON object; its members are kept as an association list. *)
Definition Jwk : Type := list (string * string).

Fixpoint jwk_member (j : Jwk) (name : string) : option string :=
  match j with
  | [] => None
  | (n, v) :: rest => if String.eqb n name then Some v else jwk_member rest name
  end.

(** [DidVerificationKeyMethod]: every member may be missing at run time
    ([None] is JavaScript's [undefined]). *)
Record DidVerificationKeyMethod : Type := {
  m_id : option string;
  m_type : option string;
  controller : option string;
  publicKeyJwk : option Jwk;
  publicKeyHex : option string;
  publicKeyBase58 : option string;
  publicKeyBase64 : option string;
  publicKeyPem : option string;
  publicKeyPgp : option string;
  publicKeyGpg : option string;
  ethereumAddress : option string;
  address : option string
}.

(** The value held by [DidVerificationKey.publicKey]: a string, a JWK object,
    or [undefined]. *)
Inductive PublicKeyValue : Type :=
| PKString (s : string)
| PKJwk (j : Jwk)
| PKUndefined.

Record DidVerificationKey : Type := {
  k_id : string;
  kty : KTYS;
  alg : ALGORITHMS;
  format : KEY_FORMATS;
  publicKey : PublicKeyValue
}.

(** JavaScript truthiness of an optional string member: [undefined] and the
    empty string are falsy.  [populated] returns the string when it is
    truthy. *)
Definition populated (o : option string) : option string :=
  match o with
  | Some s => if String.eqb s "" then None else Some s
  | None => None
  end.

Definition truthy (o : option string) : bool :=
  match populated o with Some _ => true | None => false end.

Definition value_of (o : option string) : PublicKeyValue :=
  match o with Some s => PKString s | None => PKUndefined end.

Definition truthy_value (v : PublicKeyValue) : bool :=
  match v with
  | PKString s => negb (String.eqb s "")
  | PKJwk _ => true
  | PKUndefined => false
  end.

Definition includes (names : list string) (s : string) : bool :=
  existsb (String.eqb s) names.

(** ** The key extraction chain *)

Section KeyExtraction.

(** [String.prototype.toUpperCase]. *)
Variable toUpperCase : string -> string.
(** [toChecksumAddress] of the ethereum-checksum-address package. *)
Variable toChecksumAddress : string -> Result string.
(** [getKeyType] and [getAlgorithm] of Utils, applied to a JWK's [kty] and
    [alg] members. *)
Variable getKeyType : option string -> Result KTYS.
Variable getAlgorithm : option string -> Result ALGORITHMS.
(** Truthiness of the run-time value of a [KEY_FORMATS] member (the values
    are assigned in globals.ts). *)
Variable format_truthy : KEY_FORMATS -> bool.

Definition Extractor : Type := DidVerificationKeyMethod -> Result DidVerificationKey.

Definition with_key (holder : DidVerificationKey) (f : KEY_FORMATS)
    (v : PublicKeyValue) : DidVerificationKey :=
  {| k_id := k_id holder; kty := kty holder; alg := alg holder;
     format := f; publicKey := v |}.

(** The [if / else if] cascade of [getVerificationKeyFromDifferentFormats]:
    the holder after the first branch whose test is truthy. *)
Definition probe (method : DidVerificationKeyMethod) (holder : DidVerificationKey)
    : Result DidVerificationKey :=
  match publicKeyJwk method with
  | Some j => Ok (with_key holder JWK (PKJwk j))
  | None =>
  match populated (publicKeyHex method) with
  | Some s => Ok (with_key holder HEX (PKString s))
  | None =>
  match populated (publicKeyBase58 method) with
  | Some s => Ok (with_key holder BASE58 (PKString s))
  | None =>
  match populated (publicKeyBase64 method) with
  | Some s => Ok (with_key holder BASE64 (PKString s))
  | None =>
  match populated (publicKeyPem method) with
  | Some s => Ok (with_key holder PKCS8_PEM (PKString s))
  | None =>
  match populated (publicKeyPgp method) with
  | Some _ => Ok (with_key holder PKCS8_PEM (value_of (publicKeyGpg method)))
  | None =>
  match populated (ethereumAddress method) with
  | Some a => c <- toChecksumAddress a ;;
              Ok (with_key holder ETHEREUM_ADDRESS (PKString c))
  | None =>
  match populated (address method) with
  | Some s => Ok (with_key holder ADDRESS (PKString s))
  | None => Throw UNSUPPORTED_KEY_FORMAT
  end end end end end end end end.

Definition getVerificationKeyFromDifferentFormats
    (method : DidVerificationKeyMethod) (holder : DidVerificationKey)
    : Result DidVerificationKey :=
  held <- probe method holder ;;
  if format_truthy (format held) && truthy_value (publicKey held)
  then Ok held
  else Throw UNSUPPORTED_KEY_FORMAT.

(** The constructor of [DidVerificationKeyExtractor] stores the names in
    upper case. *)
Definition new_names (names : list string) : list string :=
  map toUpperCase names.

(** The guard every handler starts with: [!method.id || !method.type]. *)
Definition guarded (method : DidVerificationKeyMethod)
    (body : string -> string -> Result DidVerificationKey)
    : Result DidVerificationKey :=
  match populated (m_id method), populated (m_type method) with
  | Some i, Some t => body i t
  | _, _ => Throw NO_MATCHING_PUBLIC_KEY
  end.

Definition initial_holder (i : string) (k : KTYS) (a : ALGORITHMS) : DidVerificationKey :=
  {| k_id := i; kty := k; alg := a; format := HEX; publicKey := PKString "" |}.

Definition EmptyDidVerificationKeyExtractor : Extractor :=
  fun _ => Throw UNSUPPORTED_PUBLIC_KEY_METHOD.

Definition JwsVerificationKey2020Extractor (names : list string) (next : Extractor)
    : Extractor := fun method =>
  guarded method (fun i t =>
    if includes names (toUpperCase t) then
      match publicKeyJwk method with
      | Some j =>
          k <- getKeyType (jwk_member j "kty") ;;
          a <- getAlgorithm (jwk_member j "alg") ;;
          Ok {| k_id := i; kty := k; alg := a; format := JWK; publicKey := PKJwk j |}
      | None => Throw UNSUPPORTED_PUBLIC_KEY_METHOD
      end
    else next method).

Definition Ed25519VerificationKeyExtractor (names : list string) (next : Extractor)
    : Extractor := fun method =>
  guarded method (fun i t =>
    if includes names (toUpperCase t) then
      getVerificationKeyFromDifferentFormats method (initial_holder i OKP EdDSA)
    else next method).

Definition GpgVerificationKey2020Extractor (names : list string) (next : Extractor)
    : Extractor := fun method =>
  guarded method (fun i t =>
    if includes names (toUpperCase t) then
      match populated (publicKeyGpg method) with
      | Some g =>
          Ok {| k_id := i; kty := RSA; alg := RS256; format := PKCS8_PEM;
                publicKey := PKString g |}
      | None => Throw UNSUPPORTED_PUBLIC_KEY_METHOD
      end
    else next method).

Definition RsaVerificationKeyExtractor (names : list string) (next : Extractor)
    : Extractor := fun method =>
  guarded method (fun i t =>
    if includes names (toUpperCase t) then
      getVerificationKeyFromDifferentFormats method (initial_holder i RSA RS256)
    else next method).

Definition EcdsaSecp256k1VerificationKeyExtractor (names : list string) (next : Extractor)
    : Extractor := fun method =>
  guarded method (fun i t =>
    if includes names (toUpperCase t) then
      getVerificationKeyFromDifferentFormats method (initial_holder i EC ES256K)
    else next method).

Definition EcdsaSecp256r1VerificationKey2019Extractor (names : list string)
    (next : Extractor) : Extractor := fun method =>
  guarded method (fun i t =>
    if includes names (toUpperCase t) then
      getVerificationKeyFromDifferentFormats method (initial_holder i EC ES256)
    else next method).

Definition EcdsaSecp256k1RecoveryMethod2020Extractor (names : list string)
    (next : Extractor) : Extractor := fun method =>
  guarded method (fun i t =>
    if includes names (toUpperCase t) || truthy (ethereumAddress method) then
      getVerificationKeyFromDifferentFormats method (initial_holder i EC ES256K_R)
    else next method).

Definition UniversalDidPublicKeyExtractor (names : list string) (next : Extractor)
    : Extractor := fun method => next method.

(** The module-level instances, chained as in the source. *)
Definition jwsVerificationKey2020Extractor : Extractor :=
  JwsVerificationKey2020Extractor (new_names ["JwsVerificationKey2020"])
    EmptyDidVerificationKeyExtractor.

Definition ed25519VerificationKeyExtractor : Extractor :=
  Ed25519VerificationKeyExtractor
    (new_names ["Ed25519VerificationKey2018"; "ED25519SignatureVerification"])
    jwsVerificationKey2020Extractor.

Definition gpgVerificationKey2020Extractor : Extractor :=
  GpgVerificationKey2020Extractor (new_names ["GpgVerificationKey2020"])
    ed25519VerificationKeyExtractor.

Definition rsaVerificationKeyExtractor : Extractor :=
  RsaVerificationKeyExtractor (new_names ["RsaVerificationKey2018"])
    gpgVerificationKey2020Extractor.

Definition ecdsaSecp256k1VerificationKeyExtractor : Extractor :=
  EcdsaSecp256k1VerificationKeyExtractor
    (new_names ["EcdsaSecp256k1VerificationKey2019"; "Secp256k1VerificationKey2018";
                "Secp256k1"])
    rsaVerificationKeyExtractor.

Definition ecdsaSecp256r1VerificationKey2019Extractor : Extractor :=
  EcdsaSecp256r1VerificationKey2019Extractor
    (new_names ["EcdsaSecp256r1VerificationKey2019"])
    ecdsaSecp256k1VerificationKeyExtractor.

Definition ecdsaSecp256k1RecoveryMethod2020Extractor : Extractor :=
  EcdsaSecp256k1RecoveryMethod2020Extractor
    (new_names ["EcdsaSecp256k1RecoveryMethod2020"])
    ecdsaSecp256r1VerificationKey2019Extractor.

Definition uniExtractor : Extractor :=
  UniversalDidPublicKeyExtractor (new_names [])
    ecdsaSecp256k1RecoveryMethod2020Extractor.

(** *** Vocabulary for stating the dispatch properties *)

(** The seven handlers reached from [uniExtractor], in chain order. *)
Inductive Handler : Type :=
| RecoveryMethod2020 | Secp256r1 | Secp256k1 | Rsa | Gpg | Ed25519 | Jws2020.

Definition dispatch_order : list Handler :=
  [RecoveryMethod2020; Secp256r1; Secp256k1; Rsa; Gpg; Ed25519; Jws2020].

Definition handler_names (h : Handler) : list string :=
  match h with
  | RecoveryMethod2020 => ["EcdsaSecp256k1RecoveryMethod2020"]
  | Secp256r1 => ["EcdsaSecp256r1VerificationKey2019"]
  | Secp256k1 => ["EcdsaSecp256k1VerificationKey2019"; "Secp256k1VerificationKey2018";
                  "Secp256k1"]
  | Rsa => ["RsaVerificationKey2018"]
  | Gpg => ["GpgVerificationKey2020"]
  | Ed25519 => ["Ed25519VerificationKey2018"; "ED25519SignatureVerification"]
  | Jws2020 => ["JwsVerificationKey2020"]
  end.

(** The test by which handler [h] claims a method: its type tag, compared
    in upper case, and for the recovery handler also the presence of an
    Ethereum address. *)
Definition handler_matches (method : DidVerificationKeyMethod) (h : Handler) : bool :=
  match populated (m_type method) with
  | Some t =>
      includes (new_names (handler_names h)) (toUpperCase t)
      || match h with
         | RecoveryMethod2020 => truthy (ethereumAddress method)
         | _ => false
         end
  | None => false
  end.

(** The first handler of the chain that claims the method, if any. *)
Definition accepting_handler (method : DidVerificationKeyMethod) : option Handler :=
  find (handler_matches method) dispatch_order.

(** The handlers that hand the method to
    [getVerificationKeyFromDifferentFormats], with the key family and
    algorithm they put in the holder. *)
Definition probing_family (h : Handler) : option (KTYS * ALGORITHMS) :=
  match h with
  | RecoveryMethod2020 => Some (EC, ES256K_R)
  | Secp256r1 => Some (EC, ES256)
  | Secp256k1 => Some (EC, ES256K)
  | Rsa => Some (RSA, RS256)
  | Ed25519 => Some (OKP, EdDSA)
  | Gpg | Jws2020 => None
  end.

(** What the handler that claimed the method does with it; [None] is the
    terminal [EmptyDidVerificationKeyExtractor]. *)
Definition handler_outcome (method : DidVerificationKeyMethod) (i : string)
    (h : option Handler) : Result DidVerificationKey :=
  match h with
  | None => Throw UNSUPPORTED_PUBLIC_KEY_METHOD
  | Some Gpg =>
      match populated (publicKeyGpg method) with
      | Some g =>
          Ok {| k_id := i; kty := RSA; alg := RS256; format := PKCS8_PEM;
                publicKey := PKString g |}
      | None => Throw UNSUPPORTED_PUBLIC_KEY_METHOD
      end
  | Some Jws2020 =>
      match publicKeyJwk method with
      | Some j =>
          k <- getKeyType (jwk_member j "kty") ;;
          a <- getAlgorithm (jwk_member j "alg") ;;
          Ok {| k_id := i; kty := k; alg := a; format := JWK; publicKey := PKJwk j |}
      | None => Throw UNSUPPORTED_PUBLIC_KEY_METHOD
      end
  | Some RecoveryMethod2020 =>
      getVerificationKeyFromDifferentFormats method (initial_holder i EC ES256K_R)
  | Some Secp256r1 =>
      getVerificationKeyFromDifferentFormats method (initial_holder i EC ES256)
  | Some Secp256k1 =>
      getVerificationKeyFromDifferentFormats method (initial_holder i EC ES256K)
  | Some Rsa =>
      getVerificationKeyFromDifferentFormats method (initial_holder i RSA RS256)
  | Some Ed25519 =>
      getVerificationKeyFromDifferentFormats method (initial_holder i OKP EdDSA)
  end.

(** *** The probing priority as the specification words it

    "JWK > hex > base58 > base64 > PEM > PGP-PEM > Ethereum-address
    (normalize to checksummed form) > generic address": the first populated
    field of the list decides format and value. *)
Inductive EncodingField : Type :=
| FJwk | FHex | FBase58 | FBase64 | FPem | FPgpPem | FEthereumAddress | FAddress.

Definition probe_priority : list EncodingField :=
  [FJwk; FHex; FBase58; FBase64; FPem; FPgpPem; FEthereumAddress; FAddress].

Definition field_format (f : EncodingField) : KEY_FORMATS :=
  match f with
  | FJwk => JWK
  | FHex => HEX
  | FBase58 => BASE58
  | FBase64 => BASE64
  | FPem | FPgpPem => PKCS8_PEM
  | FEthereumAddress => ETHEREUM_ADDRESS
  | FAddress => ADDRESS
  end.

Definition string_value (o : option string) : option PublicKeyValue :=
  option_map PKString (populated o).

Definition field_value (method : DidVerificationKeyMethod) (f : EncodingField)
    : option PublicKeyValue :=
  match f with
  | FJwk => option_map PKJwk (publicKeyJwk method)
  | FHex => string_value (publicKeyHex method)
  | FBase58 => string_value (publicKeyBase58 method)
  | FBase64 => string_value (publicKeyBase64 method)
  | FPem => string_value (publicKeyPem method)
  | FPgpPem => string_value (publicKeyPgp method)
  | FEthereumAddress => string_value (ethereumAddress method)
  | FAddress => string_value (address method)
  end.

Definition field_populated (method : DidVerificationKeyMethod) (f : EncodingField) : bool :=
  match field_value method f with Some _ => true | None => false end.

Definition first_populated (method : DidVerificationKeyMethod) : option EncodingField :=
  find (field_populated method) probe_priority.

End KeyExtraction.

(** ASCII case mapping, used to run the chain on concrete methods. *)
Definition ascii_upper (c : Ascii.ascii) : Ascii.ascii :=
  let n := Ascii.nat_of_ascii c in
  if (97 <=? n)%nat && (n <=? 122)%nat then Ascii.ascii_of_nat (n - 32) else c.

Fixpoint ascii_toUpperCase (s : string) : string :=
  match s with
  | EmptyString => EmptyString
  | String c rest => String (ascii_upper c) (ascii_toUpperCase rest)
  end.

(** ** The combined resolver (Identity/Resolvers/index.ts) *)

Section Resolution.

Variable DidDocument : Type.

(** A resolver of the chain: [resolve(did)] resolves to a document, resolves
    to a falsy value ([None]), or rejects. *)
Record DidResolver : Type := { resolve : string -> Result (option DidDocument) }.

(** [new UniversalDidResolver('uniresolver')]. *)
Variable uniResolver : DidResolver.

Record CombinedDidResolver : Type := { resolvers : list DidResolver }.

Definition addResolver (this : CombinedDidResolver) (resolver : DidResolver)
    : CombinedDidResolver :=
  {| resolvers := resolvers this ++ [resolver] |}.

Definition getResolvers (this : CombinedDidResolver) : list DidResolver :=
  resolvers this.

(** The [for ... of] loop of [resolveDidDocumet] and the [throw] after it.
    The second component records the resolvers whose [resolve] was awaited,
    in call order. *)
Fixpoint for_of_resolvers (rs : list DidResolver) (did : string)
    : Result DidDocument * list DidResolver :=
  match rs with
  | [] => (Throw DOCUMENT_RESOLUTION_ERROR, [])
  | resolver :: rest =>
      match resolve resolver did with
      | Ok (Some doc) => (Ok doc, [resolver])
      | Ok None | Throw _ =>
          let (r, tried) := for_of_resolvers rest did in (r, resolver :: tried)
      end
  end.

(** [resolveDidDocumet]: the outcome, the resolvers tried, and the receiver
    after the call (it keeps the fallback resolver once added). *)
Definition resolveDidDocumet (this : CombinedDidResolver) (did : string)
    : Result DidDocument * list DidResolver * CombinedDidResolver :=
  let this' :=
    if Nat.eqb (length (resolvers this)) 0 then addResolver this uniResolver else this in
  (for_of_resolvers (resolvers this') did, this').

(** The chain a resolution runs over: the configured resolvers, or the
    fallback alone when none is configured. *)
Definition effective_chain (this : CombinedDidResolver) : list DidResolver :=
  match resolvers this with
  | [] => [uniResolver]
  | rs => rs
  end.

(** The resolver's call was rejected or resolved to a falsy value. *)
Definition gives_nothing (did : string) (r : DidResolver) : Prop :=
  match resolve r did with
  | Ok (Some _) => False
  | _ => True
  end.

End Resolution.

Arguments resolve {DidDocument} _ _.
Arguments resolvers {DidDocument} _.
Arguments Build_DidResolver {DidDocument} _.
Arguments Build_CombinedDidResolver {DidDocument} _.
Arguments addResolver {DidDocument} _ _.
Arguments for_of_resolvers {DidDocument} _ _.
Arguments resolveDidDocumet {DidDocument} _ _ _.
Arguments effective_chain {DidDocument} _ _.
Arguments gives_nothing {DidDocument} _ _.

(** ** Numbers: the doubles behind [Math.random() * length] *)

Section Doubles.

Local Open Scope Z_scope.

(** A non-negative finite Number, [mantissa * 2 ^ exponent].  The pair need
    not be normalised: 3 * 2^-2 and 6 * 2^-3 are the same Number. *)
Record Double : Type := { mantissa : Z; exponent : Z }.

(** The pairs that are values of IEEE 754 binary64: 53 bits of mantissa, the
    least exponent that of the subnormal numbers. *)
Definition is_double (d : Double) : Prop :=
  0 <= mantissa d < 2 ^ 53 /\ -1074 <= exponent d <= 971.

(** The rational a pair denotes. *)
Definition Double_value (d : Double) : Q :=
  if 0 <=? exponent d then inject_Z (mantissa d * 2 ^ exponent d)
  else mantissa d # Z.to_pos (2 ^ (- exponent d)).

(** [Math.floor]: a shift to the left multiplies by a power of two, a shift
    to the right divides and rounds down. *)
Definition Double_floor (d : Double) : Z := Z.shiftl (mantissa d) (exponent d).

(** [P / 2 ^ s] rounded to the nearest integer, a tie going to the even
    neighbour (the IEEE default, the only rounding mode of JavaScript). *)
Definition round_half_even (P s : Z) : Z :=
  let q := Z.shiftr P s in
  let rem := P mod 2 ^ s in
  let half := 2 ^ (s - 1) in
  if rem <? half then q
  else if half <? rem then q + 1
  else if Z.even q then q else q + 1.

(** [d * n] for a double [d] and an integer [n] that is itself a double (an
    array length is): the exact product [mantissa d * n * 2 ^ exponent d]
    when its mantissa fits 53 bits, and otherwise the exact product rounded
    to 53 bits.  The exponent never drops below that of [d], so no product
    is rounded for being subnormal; a mantissa of 2^53, reached when the
    rounding carries, denotes the right Number. *)
Definition Double_times (d : Double) (n : Z) : Double :=
  let P := mantissa d * n in
  if P <? 2 ^ 53 then {| mantissa := P; exponent := exponent d |}
  else
    let s := Z.log2 P - 52 in
    {| mantissa := round_half_even P s; exponent := exponent d + s |}.

(** *** Vocabulary for stating the selection properties *)

(** The index an exact product would give, floor of the rational
    [random * length]. *)
Definition exact_index (random : Double) (length : nat) : nat :=
  Z.to_nat (Qfloor (Double_value random * inject_Z (Z.of_nat length))).

(** The least multiple of 2^-53 whose exact product with [length] reaches
    [i]: ceil(i * 2^53 / length) * 2^-53. *)
Definition draw_for (i length : nat) : Double :=
  {| mantissa := (Z.of_nat i * 2 ^ 53 + Z.of_nat length - 1) / Z.of_nat length;
     exponent := -53 |}.

End Doubles.

(** ** The Provider *)

(** What [KEY_FORMATS[key_format]] evaluates to as [key_format] runs over the
    enumerable keys of the enum object: a member, or (for the reverse mapping
    a numeric enum carries) the name of a member. *)
Inductive FormatEntry : Type :=
| Member (f : KEY_FORMATS)
| MemberName (n : string).

(** [KeyInputs.KeyInfo]. *)
Record KeyInfo : Type := {
  ki_key : PublicKeyValue;
  ki_kid : string;
  ki_use : string;
  ki_kty : option string;
  ki_alg : option string;
  ki_format : FormatEntry;
  ki_isPrivate : bool
}.

Record SigningInfo : Type := {
  si_alg : ALGORITHMS;
  si_kid : string;
  si_key : string;
  si_format : FormatEntry
}.

(** The signer and verifier objects a trial constructs, as a pair. *)
Inductive Suite : Type :=
| RSASuite                 (* new RSASigner(), new RSAVerifier() *)
| ECSuite                  (* new ECSigner(), new ECVerifier() *)
| ES256KRecoverableSuite   (* new ES256KRecoverableSigner(), new ES256KRecoverableVerifier() *)
| OKPSuite.                (* new OKPSigner(), new OKPVerifier() *)

(** The entry [addSigningParams] pushes for a document key, a private key
    and the format under which the pair checked. *)
Definition recorded (k : DidVerificationKey) (key : string) (f : FormatEntry)
    : SigningInfo :=
  {| si_alg := alg k; si_kid := k_id k; si_key := key; si_format := f |}.

Section Provider.

(** The [Identity] class: only the two methods the provider calls. *)
Variable Identity : Type.
Variable isResolved : Identity -> bool.
Variable extractAuthenticationKeys : Identity -> Result (list DidVerificationKey).

(** utils: multibase detection, and the conversion, which decodes its
    argument and may throw. *)
Variable isMultibasePvtKey : string -> bool.
Variable getBase58fromMultibase : string -> Result string.

(** globals: the reverse lookups [KTYS[kty]] and [ALGORITHMS[alg]], and the
    values met by [for (let key_format in KEY_FORMATS)], in order. *)
Variable KTYS_at : KTYS -> option string.
Variable ALGORITHMS_at : ALGORITHMS -> option string.
Variable KEY_FORMATS_entries : list FormatEntry.

(** jwk-utils and utils: key construction and the key-pair check. *)
Variable Key : Type.
Variable RSAKey_fromKey : KeyInfo -> Result Key.
Variable ECKey_fromKey : KeyInfo -> Result Key.
Variable OKP_fromKey : KeyInfo -> Result Key.
Variable checkKeyPair : Key -> Key + PublicKeyValue -> Suite -> ALGORITHMS -> Result bool.

(** response: the builders the provider delegates to. *)
Variable RequestPayload : Type.
Variable VPData : Type.
Variable SIOPTokensEcoded : Type.
Variable DidSiopResponse_generateResponse :
  RequestPayload -> option SigningInfo -> Identity -> Z -> Result string.
Variable DidSiopResponse_generateResponseWithVPData :
  RequestPayload -> option SigningInfo -> Identity -> Z -> VPData -> Result SIOPTokensEcoded.

(** The fields of [Provider] that the modelled methods read or write (the
    private [resolvers] array is used by [setUser] and [validateRequest]
    only). *)
Record Provider : Type := {
  identity : Identity;
  signing_info_set : list SigningInfo
}.

Definition push_signing_info (this : Provider) (s : SigningInfo) : Provider :=
  {| identity := identity this; signing_info_set := signing_info_set this ++ [s] |}.

Definition publicKeyInfo_of (didPublicKey : DidVerificationKey) : KeyInfo :=
  {| ki_key := publicKey didPublicKey;
     ki_kid := k_id didPublicKey;
     ki_use := "sig";
     ki_kty := KTYS_at (kty didPublicKey);
     ki_alg := ALGORITHMS_at (alg didPublicKey);
     ki_format := Member (format didPublicKey);
     ki_isPrivate := false |}.

Definition privateKeyInfo_of (didPublicKey : DidVerificationKey) (key : string)
    (key_format : FormatEntry) : KeyInfo :=
  {| ki_key := PKString key;
     ki_kid := k_id didPublicKey;
     ki_use := "sig";
     ki_kty := KTYS_at (kty didPublicKey);
     ki_alg := ALGORITHMS_at (alg didPublicKey);
     ki_format := key_format;
     ki_isPrivate := true |}.

(** The body of the inner [try]: the [switch] on the key type followed by
    the call of [checkKeyPair].  [Ok true] is a confirmed pair; [Ok false]
    covers a pair that does not check and the [default: continue] branch;
    [Throw] is an exception raised inside the [try]. *)
Definition try_combination (didPublicKey : DidVerificationKey) (key : string)
    (key_format : FormatEntry) : Result bool :=
  let publicKeyInfo := publicKeyInfo_of didPublicKey in
  let privateKeyInfo := privateKeyInfo_of didPublicKey key key_format in
  match kty didPublicKey with
  | RSA =>
      privateKey <- RSAKey_fromKey privateKeyInfo ;;
      publicKey <- RSAKey_fromKey publicKeyInfo ;;
      checkKeyPair privateKey (inl publicKey) RSASuite (alg didPublicKey)
  | EC =>
      if KEY_FORMATS_eqb (format didPublicKey) ETHEREUM_ADDRESS then
        privateKey <- ECKey_fromKey privateKeyInfo ;;
        checkKeyPair privateKey (inr (publicKey didPublicKey)) ES256KRecoverableSuite
          (alg didPublicKey)
      else
        privateKey <- ECKey_fromKey privateKeyInfo ;;
        publicKey <- ECKey_fromKey publicKeyInfo ;;
        checkKeyPair privateKey (inl publicKey) ECSuite (alg didPublicKey)
  | OKP =>
      privateKey <- OKP_fromKey privateKeyInfo ;;
      publicKey <- OKP_fromKey publicKeyInfo ;;
      checkKeyPair privateKey (inl publicKey) OKPSuite (alg didPublicKey)
  | KtyOther _ => Ok false
  end.

(** [for (let key_format in KEY_FORMATS)]: [Some] when the method returned
    from inside the loop, with the kid returned and the provider after the
    [push]. *)
Fixpoint for_in_KEY_FORMATS (this : Provider) (didPublicKey : DidVerificationKey)
    (key : string) (entries : list FormatEntry) : option (string * Provider) :=
  match entries with
  | [] => None
  | key_format :: rest =>
      match try_combination didPublicKey key key_format with
      | Ok true =>
          Some (k_id didPublicKey,
                push_signing_info this
                  {| si_alg := alg didPublicKey;
                     si_kid := k_id didPublicKey;
                     si_key := key;
                     si_format := key_format |})
      | Ok false | Throw _ => for_in_KEY_FORMATS this didPublicKey key rest
      end
  end.

(** [for (let didPublicKey of didPublicKeySet)]. *)
Fixpoint for_of_didPublicKeySet (this : Provider) (didPublicKeySet : list DidVerificationKey)
    (key : string) : option (string * Provider) :=
  match didPublicKeySet with
  | [] => None
  | didPublicKey :: rest =>
      match for_in_KEY_FORMATS this didPublicKey key KEY_FORMATS_entries with
      | Some r => Some r
      | None => for_of_didPublicKeySet this rest key
      end
  end.

(** [if (isMultibasePvtKey(key)) key = getBase58fromMultibase(key)]. *)
Definition normalized (key : string) : Result string :=
  if isMultibasePvtKey key then getBase58fromMultibase key else Ok key.

Definition addSigningParams (this : Provider) (key : string) : Result string * Provider :=
  match extractAuthenticationKeys (identity this) with
  | Throw e => (Throw e, this)
  | Ok didPublicKeySet =>
      match normalized key with
      | Throw e => (Throw e, this)
      | Ok key =>
          match for_of_didPublicKeySet this didPublicKeySet key with
          | Some (kid, this') => (Ok kid, this')
          | None => (Throw NO_PUBLIC_KEY, this)
          end
      end
  end.

Definition removeSigningParams (this : Provider) (kid : string) : Provider :=
  {| identity := identity this;
     signing_info_set :=
       filter (fun s => negb (String.eqb (si_kid s) kid)) (signing_info_set this) |}.

(** [Math.floor(Math.random() * length)], the value of [Math.random()]
    being the double [random]: the array length converts to a double without
    rounding, the product is the IEEE product, rounded, and [Math.floor] of
    it is the index. *)
Definition random_index (random : Double) (length : nat) : nat :=
  Z.to_nat (Double_floor (Double_times random (Z.of_nat length))).

Definition default_expiresIn (expiresIn : option Z) : Z :=
  match expiresIn with Some n => n | None => 1000%Z end.

Definition generateResponse (this : Provider) (requestPayload : RequestPayload)
    (expiresIn : option Z) (random : Double) : Result string :=
  if (0 <? length (signing_info_set this))%nat then
    let signing_info :=
      nth_error (signing_info_set this)
        (random_index random (length (signing_info_set this))) in
    if isResolved (identity this) then
      DidSiopResponse_generateResponse requestPayload signing_info (identity this)
        (default_expiresIn expiresIn)
    else Throw UNRESOLVED_IDENTITY
  else Throw NO_SIGNING_INFO.

Definition generateResponseWithVPData (this : Provider) (requestPayload : RequestPayload)
    (expiresIn : option Z) (vps : VPData) (random : Double) : Result SIOPTokensEcoded :=
  if (0 <? length (signing_info_set this))%nat then
    let signing_info :=
      nth_error (signing_info_set this)
        (random_index random (length (signing_info_set this))) in
    if isResolved (identity this) then
      DidSiopResponse_generateResponseWithVPData requestPayload signing_info
        (identity this) (default_expiresIn expiresIn) vps
    else Throw UNRESOLVED_IDENTITY
  else Throw NO_SIGNING_INFO.

(** *** Vocabulary for stating the matching properties *)

(** The private key pairs with a document key under some enumerated
    format. *)
Definition matches_key (key : string) (didPublicKey : DidVerificationKey) : bool :=
  existsb (fun key_format => match try_combination didPublicKey key key_format with
                             | Ok true => true
                             | _ => false
                             end) KEY_FORMATS_entries.

(** A private key and a document key are a pair under a format, in the
    words of the collaborators alone: both keys are built by the constructor
    of the document key's family (RSA, EC or OKP) and [checkKeyPair] answers
    [true] for them with the signer and verifier of that family; a document
    key in Ethereum-address format is not built but handed as it is, with
    the recoverable signer and verifier. *)
Definition key_pair_checks (didPublicKey : DidVerificationKey) (key : string)
    (key_format : FormatEntry) : Prop :=
  match kty didPublicKey with
  | RSA =>
      exists privateKey publicKey,
        RSAKey_fromKey (privateKeyInfo_of didPublicKey key key_format) = Ok privateKey
        /\ RSAKey_fromKey (publicKeyInfo_of didPublicKey) = Ok publicKey
        /\ checkKeyPair privateKey (inl publicKey) RSASuite (alg didPublicKey) = Ok true
  | EC =>
      if KEY_FORMATS_eqb (format didPublicKey) ETHEREUM_ADDRESS then
        exists privateKey,
          ECKey_fromKey (privateKeyInfo_of didPublicKey key key_format) = Ok privateKey
          /\ checkKeyPair privateKey (inr (publicKey didPublicKey))
               ES256KRecoverableSuite (alg didPublicKey) = Ok true
      else
        exists privateKey publicKey,
          ECKey_fromKey (privateKeyInfo_of didPublicKey key key_format) = Ok privateKey
          /\ ECKey_fromKey (publicKeyInfo_of didPublicKey) = Ok publicKey
          /\ checkKeyPair privateKey (inl publicKey) ECSuite (alg didPublicKey) = Ok true
  | OKP =>
      exists privateKey publicKey,
        OKP_fromKey (privateKeyInfo_of didPublicKey key key_format) = Ok privateKey
        /\ OKP_fromKey (publicKeyInfo_of didPublicKey) = Ok publicKey
        /\ checkKeyPair privateKey (inl publicKey) OKPSuite (alg didPublicKey) = Ok true
  | KtyOther _ => False
  end.

End Provider.

Arguments Build_Provider {Identity} _ _.
Arguments identity {Identity} _.
Arguments signing_info_set {Identity} _.
Arguments push_signing_info {Identity} _ _.
Arguments removeSigningParams {Identity} _ _.
Arguments try_combination _ _ {Key} _ _ _ _ _ _ _.
Arguments for_in_KEY_FORMATS {Identity} _ _ {Key} _ _ _ _ _ _ _ _.
Arguments for_of_didPublicKeySet {Identity} _ _ _ {Key} _ _ _ _ _ _ _.
Arguments addSigningParams {Identity} _ _ _ _ _ _ {Key} _ _ _ _ _ _.
Arguments matches_key _ _ _ {Key} _ _ _ _ _ _.
Arguments key_pair_checks _ _ {Key} _ _ _ _ _ _ _.
Arguments generateResponse {Identity} _ {RequestPayload} _ _ _ _ _.
Arguments generateResponseWithVPData {Identity} _ {RequestPayload VPData SIOPTokensEcoded}
  _ _ _ _ _ _.

(** ** Setting up a Provider and validating requests *)

Section ProviderSetup.

(** The [Identity] class as [setUser] uses it: each method may change the
    identity it is called on, and may throw. *)
Variable Identity : Type.
Variable DidDocument : Type.
Variable Resolver : Type.
(** [new Identity()]. *)
Variable new_Identity : Identity.
Variable setDocument : Identity -> DidDocument -> string -> Result unit * Identity.
Variable addResolvers : Identity -> list Resolver -> Result unit * Identity.
Variable Identity_resolve : Identity -> string -> Result unit * Identity.

(** request: [DidSiopRequest.validateRequest]. *)
Variable Metadata : Type.
Variable JWTObject : Type.
Variable DidSiopRequest_validateRequest :
  string -> option Metadata -> option (list Resolver) -> Result JWTObject.

(** A [Provider] with its third field, the private [resolvers] array. *)
Record ProviderObject : Type := {
  provider_fields : Provider Identity;
  provider_resolvers : list Resolver
}.

(** [new Provider()]: the field initializers. *)
Definition new_Provider : ProviderObject :=
  {| provider_fields := {| identity := new_Identity; signing_info_set := [] |};
     provider_resolvers := [] |}.

Definition with_identity (this : ProviderObject) (i : Identity) : ProviderObject :=
  {| provider_fields :=
       {| identity := i; signing_info_set := signing_info_set (provider_fields this) |};
     provider_resolvers := provider_resolvers this |}.

Definition with_resolvers (this : ProviderObject) (rs : list Resolver) : ProviderObject :=
  {| provider_fields := provider_fields this; provider_resolvers := rs |}.

(** [setUser]: the outcome and the provider after the call (the [catch]
    rethrows, so what was written before a failure stays written). *)
Definition setUser (this : ProviderObject) (did : string) (doc : option DidDocument)
    (resolvers : option (list Resolver)) : Result unit * ProviderObject :=
  match doc with
  | Some d =>
      let (r, i) := setDocument (identity (provider_fields this)) d did in
      (r, with_identity this i)
  | None =>
      match resolvers with
      | Some (r0 :: rs) =>
          match addResolvers (identity (provider_fields this)) (r0 :: rs) with
          | (Throw e, i) => (Throw e, with_identity this i)
          | (Ok _, i) =>
              let this1 := with_resolvers (with_identity this i) (r0 :: rs) in
              let (r, i') := Identity_resolve i did in
              (r, with_identity this1 i')
          end
      | _ =>
          let (r, i') := Identity_resolve (identity (provider_fields this)) did in
          (r, with_identity this i')
      end
  end.

(** [Provider.getProvider]: a provider is handed out only when [setUser]
    succeeded. *)
Definition getProvider (did : string) (doc : option DidDocument)
    (resolvers : option (list Resolver)) : Result ProviderObject :=
  match setUser new_Provider did doc resolvers with
  | (Ok _, provider) => Ok provider
  | (Throw e, _) => Throw e
  end.

(** The local [resolversToValidate] of [validateRequest]; [None] is
    [undefined]. *)
Definition resolversToValidate (this : ProviderObject)
    (resolvers : option (list Resolver)) : option (list Resolver) :=
  match resolvers with
  | Some (r :: rs) => Some (r :: rs)
  | _ =>
      match provider_resolvers this with
      | r :: rs => Some (r :: rs)
      | [] => None
      end
  end.

Definition validateRequest (this : ProviderObject) (request : string)
    (op_metadata : option Metadata) (resolvers : option (list Resolver))
    : Result JWTObject :=
  DidSiopRequest_validateRequest request op_metadata
    (resolversToValidate this resolvers).

End ProviderSetup.

Arguments Build_ProviderObject {Identity Resolver} _ _.
Arguments provider_fields {Identity Resolver} _.
Arguments provider_resolvers {Identity Resolver} _.
Arguments new_Provider {Identity} Resolver _.
Arguments with_identity {Identity Resolver} _ _.
Arguments with_resolvers {Identity Resolver} _ _.
Arguments setUser {Identity DidDocument Resolver} _ _ _ _ _ _ _.
Arguments getProvider {Identity DidDocument Resolver} _ _ _ _ _ _ _.
Arguments resolversToValidate {Identity Resolver} _ _.
Arguments validateRequest {Identity Resolver Metadata JWTObject} _ _ _ _ _.

(** ** Further vocabulary *)

(** The method with its type tag replaced, every other member kept. *)
Definition with_type (m : DidVerificationKeyMethod) (t : option string)
    : DidVerificationKeyMethod :=
  {| m_id := m_id m; m_type := t; controller := controller m;
     publicKeyJwk := publicKeyJwk m; publicKeyHex := publicKeyHex m;
     publicKeyBase58 := publicKeyBase58 m; publicKeyBase64 := publicKeyBase64 m;
     publicKeyPem := publicKeyPem m; publicKeyPgp := publicKeyPgp m;
     publicKeyGpg := publicKeyGpg m; ethereumAddress := ethereumAddress m;
     address := address m |}.

(** ** Concrete collaborators and data

    Stand-ins for the collaborators, simple enough to evaluate, and a few
    verification methods and providers; they are used to run the model on
    concrete inputs. *)

(** [toChecksumAddress] on an address already in checksummed form. *)
Definition keep_checksummed (a : string) : Result string := Ok a.

Definition sample_getKeyType (o : option string) : Result KTYS :=
  match o with
  | Some "RSA" => Ok RSA
  | Some "EC" => Ok EC
  | Some "OKP" => Ok OKP
  | _ => Throw (Thrown "invalid key type")
  end.

Definition sample_getAlgorithm (o : option string) : Result ALGORITHMS :=
  match o with
  | Some "ES256K" => Ok ES256K
  | Some "EdDSA" => Ok EdDSA
  | Some "RS256" => Ok RS256
  | _ => Throw (Thrown "invalid algorithm")
  end.

(** Every format value truthy, as for an enum whose values are its names. *)
Definition every_format_truthy (f : KEY_FORMATS) : bool := true.

Definition sample_extract : DidVerificationKeyMethod -> Result DidVerificationKey :=
  uniExtractor ascii_toUpperCase keep_checksummed sample_getKeyType sample_getAlgorithm
    every_format_truthy.

Definition bare_method (i t : option string) : DidVerificationKeyMethod :=
  {| m_id := i; m_type := t; controller := None; publicKeyJwk := None;
     publicKeyHex := None; publicKeyBase58 := None; publicKeyBase64 := None;
     publicKeyPem := None; publicKeyPgp := None; publicKeyGpg := None;
     ethereumAddress := None; address := None |}.

(** A method whose type tag names the plain secp256k1 suite but which carries
    an Ethereum address. *)
Definition address_method : DidVerificationKeyMethod :=
  {| m_id := Some "did:ethr:0xB9c5#controller";
     m_type := Some "Secp256k1VerificationKey2018";
     controller := Some "did:ethr:0xB9c5"; publicKeyJwk := None;
     publicKeyHex := None; publicKeyBase58 := None; publicKeyBase64 := None;
     publicKeyPem := None; publicKeyPgp := None; publicKeyGpg := None;
     ethereumAddress := Some "0xB9C5714089478a327F09197987f16f9E5d936E8a";
     address := None |}.

(** The same method without its id. *)
Definition address_method_without_id : DidVerificationKeyMethod :=
  {| m_id := None;
     m_type := Some "Secp256k1VerificationKey2018";
     controller := Some "did:ethr:0xB9c5"; publicKeyJwk := None;
     publicKeyHex := None; publicKeyBase58 := None; publicKeyBase64 := None;
     publicKeyPem := None; publicKeyPgp := None; publicKeyGpg := None;
     ethereumAddress := Some "0xB9C5714089478a327F09197987f16f9E5d936E8a";
     address := None |}.

(** An RSA method with both a base58 and a PEM encoding. *)
Definition rsa_method : DidVerificationKeyMethod :=
  {| m_id := Some "did:example:123#rsa"; m_type := Some "rsaverificationkey2018";
     controller := None; publicKeyJwk := None;
     publicKeyHex := None; publicKeyBase58 := Some "2pju9"; publicKeyBase64 := None;
     publicKeyPem := Some "-----BEGIN PUBLIC KEY-----"; publicKeyPgp := None;
     publicKeyGpg := None; ethereumAddress := None; address := None |}.

(** A GPG-typed method whose only encoding is a hex key. *)
Definition gpg_hex_method : DidVerificationKeyMethod :=
  {| m_id := Some "did:example:123#gpg"; m_type := Some "GpgVerificationKey2020";
     controller := None; publicKeyJwk := None;
     publicKeyHex := Some "04ab"; publicKeyBase58 := None; publicKeyBase64 := None;
     publicKeyPem := None; publicKeyPgp := None; publicKeyGpg := None;
     ethereumAddress := None; address := None |}.

(** An RSA-typed method whose only encoding is the field the PGP branch
    tests. *)
Definition rsa_pgp_method : DidVerificationKeyMethod :=
  {| m_id := Some "did:example:123#pgp"; m_type := Some "RsaVerificationKey2018";
     controller := None; publicKeyJwk := None;
     publicKeyHex := None; publicKeyBase58 := None; publicKeyBase64 := None;
     publicKeyPem := None; publicKeyPgp := Some "-----BEGIN PGP PUBLIC KEY BLOCK-----";
     publicKeyGpg := None; ethereumAddress := None; address := None |}.

(** The same method with the GPG field populated too, by another value. *)
Definition rsa_pgp_gpg_method : DidVerificationKeyMethod :=
  {| m_id := Some "did:example:123#pgp"; m_type := Some "RsaVerificationKey2018";
     controller := None; publicKeyJwk := None;
     publicKeyHex := None; publicKeyBase58 := None; publicKeyBase64 := None;
     publicKeyPem := None; publicKeyPgp := Some "-----BEGIN PGP PUBLIC KEY BLOCK-----";
     publicKeyGpg := Some "-----BEGIN PGP PUBLIC KEY BLOCK----- mQENBF";
     ethereumAddress := None; address := None |}.

(** The format values of an enum that numbers its members from 0: only the
    first, PKCS8_PEM, is falsy. *)
Definition numbered_format_truthy (f : KEY_FORMATS) : bool :=
  negb (KEY_FORMATS_eqb f PKCS8_PEM).

(** Resolvers over documents that are plain strings. *)
Definition rejecting_resolver : DidResolver string :=
  {| resolve := fun _ => Throw (Thrown "network") |}.
Definition empty_resolver : DidResolver string :=
  {| resolve := fun _ => Ok None |}.
Definition answering_resolver (doc : string) : DidResolver string :=
  {| resolve := fun _ => Ok (Some doc) |}.

(** A toy key check: the public key of the private key [s] is ["pk:" ++ s],
    its address ["addr:" ++ s]; a private key is only built from the HEX
    format, any other format entry makes the constructor throw. *)
Definition toy_fromKey (info : KeyInfo) : Result string :=
  match ki_key info with
  | PKString s =>
      if ki_isPrivate info then
        match ki_format info with
        | Member HEX => Ok s
        | _ => Throw (Thrown "invalid key format")
        end
      else Ok s
  | _ => Throw (Thrown "invalid key")
  end.

Definition toy_checkKeyPair (privateKey : string) (publicKey : string + PublicKeyValue)
    (suite : Suite) (a : ALGORITHMS) : Result bool :=
  match publicKey with
  | inl p => Ok (String.eqb p ("pk:" ++ privateKey))
  | inr (PKString p) => Ok (String.eqb p ("addr:" ++ privateKey))
  | inr _ => Throw (Thrown "invalid address")
  end.

Definition declared_formats : list FormatEntry :=
  [Member PKCS8_PEM; Member PKCS1_PEM; Member HEX; Member BASE58; Member BASE64;
   Member JWK; Member ETHEREUM_ADDRESS; Member ADDRESS].

(** An identity is its extracted authentication keys, or unresolved. *)
Definition toy_isResolved (i : option (list DidVerificationKey)) : bool :=
  match i with Some _ => true | None => false end.

Definition toy_extractAuthenticationKeys (i : option (list DidVerificationKey))
    : Result (list DidVerificationKey) :=
  match i with Some ks => Ok ks | None => Throw UNRESOLVED_IDENTITY end.

Definition toy_addSigningParams :=
  addSigningParams toy_extractAuthenticationKeys (fun _ => false) (fun key => Ok key)
    (fun _ => None) (fun _ => None) declared_formats toy_fromKey toy_fromKey toy_fromKey
    toy_checkKeyPair.

Definition toy_matches :=
  matches_key (fun _ => None) (fun _ => None) declared_formats toy_fromKey toy_fromKey
    toy_fromKey toy_checkKeyPair.

Definition toy_respond (payload : string) (s : option SigningInfo)
    (i : option (list DidVerificationKey)) (expiresIn : Z) : Result string :=
  match s with
  | Some info => Ok (si_kid info)
  | None => Throw (Thrown "no signing info")
  end.

Definition toy_respondVP (payload : string) (s : option SigningInfo)
    (i : option (list DidVerificationKey)) (expiresIn : Z) (vps : string)
    : Result (string * string) :=
  match s with
  | Some info => Ok (si_kid info, vps)
  | None => Throw (Thrown "no signing info")
  end.

Definition oct_key : DidVerificationKey :=
  {| k_id := "did:example:123#oct"; kty := KtyOther "oct"; alg := RS256;
     format := HEX; publicKey := PKString "pk:c4873e" |}.
Definition other_ec_key : DidVerificationKey :=
  {| k_id := "did:example:123#other"; kty := EC; alg := ES256;
     format := HEX; publicKey := PKString "pk:0000" |}.
Definition controller_key : DidVerificationKey :=
  {| k_id := "did:example:123#controller"; kty := EC; alg := ES256K_R;
     format := ETHEREUM_ADDRESS; publicKey := PKString "addr:c4873e" |}.
Definition second_key : DidVerificationKey :=
  {| k_id := "did:example:123#second"; kty := EC; alg := ES256K;
     format := HEX; publicKey := PKString "pk:c4873e" |}.

Definition sample_keys : list DidVerificationKey :=
  [oct_key; other_ec_key; controller_key; second_key].

Definition fresh_provider : Provider (option (list DidVerificationKey)) :=
  {| identity := Some sample_keys; signing_info_set := [] |}.

Definition earlier_entry : SigningInfo :=
  {| si_alg := EdDSA; si_kid := "did:example:123#ed"; si_key := "9f31";
     si_format := Member BASE58 |}.

Definition loaded_provider : Provider (option (list DidVerificationKey)) :=
  {| identity := Some sample_keys;
     signing_info_set := [earlier_entry; recorded controller_key "c4873e" (Member HEX)] |}.

Definition unresolved_provider : Provider (option (list DidVerificationKey)) :=
  {| identity := None; signing_info_set := [earlier_entry] |}.

Definition later_entry : SigningInfo :=
  {| si_alg := RS256; si_kid := "did:example:123#rsa"; si_key := "77aa";
     si_format := Member PKCS8_PEM |}.

Definition crowded_provider : Provider (option (list DidVerificationKey)) :=
  {| identity := Some sample_keys;
     signing_info_set :=
       [earlier_entry; recorded controller_key "c4873e" (Member HEX); later_entry] |}.

(** The Number 0.6666666666666666, the double nearest to 2/3 (and below
    it), and (2^54 - 1) / 7 * 2^-52, the double nearest to 4/7 (and below
    it). *)
Definition two_thirds : Double :=
  {| mantissa := 6004799503160661%Z; exponent := (-53)%Z |}.

Definition four_sevenths : Double :=
  {| mantissa := 2573485501354569%Z; exponent := (-52)%Z |}.

(** A method with both an Ethereum address and a hex key. *)
Definition address_and_hex_method : DidVerificationKeyMethod :=
  {| m_id := Some "did:ethr:0xB9c5#both";
     m_type := Some "EcdsaSecp256k1RecoveryMethod2020";
     controller := Some "did:ethr:0xB9c5"; publicKeyJwk := None;
     publicKeyHex := Some "04ab"; publicKeyBase58 := None; publicKeyBase64 := None;
     publicKeyPem := None; publicKeyPgp := None; publicKeyGpg := None;
     ethereumAddress := Some "0xB9C5714089478a327F09197987f16f9E5d936E8a";
     address := None |}.

(** A JWS-typed method with a JWK and, beside it, a hex key. *)
Definition sample_jwk : Jwk := [("kty", "EC"); ("crv", "secp256k1"); ("alg", "ES256K")].

Definition jws_method : DidVerificationKeyMethod :=
  {| m_id := Some "did:example:123#jws"; m_type := Some "JwsVerificationKey2020";
     controller := None; publicKeyJwk := Some sample_jwk;
     publicKeyHex := Some "04ab"; publicKeyBase58 := None; publicKeyBase64 := None;
     publicKeyPem := None; publicKeyPgp := None; publicKeyGpg := None;
     ethereumAddress := None; address := None |}.

Definition toy_trial : DidVerificationKey -> string -> FormatEntry -> Result bool :=
  try_combination (fun _ => None) (fun _ => None) toy_fromKey toy_fromKey toy_fromKey
    toy_checkKeyPair.

(** A toy identity for [setUser]: a document is a list of keys, resolvers are
    named by strings, and resolution fails. *)
Definition toy_setDocument (i : option (list DidVerificationKey))
    (d : list DidVerificationKey) (did : string)
    : Result unit * option (list DidVerificationKey) :=
  (Ok tt, Some d).

Definition toy_addResolvers (i : option (list DidVerificationKey)) (rs : list string)
    : Result unit * option (list DidVerificationKey) :=
  (Ok tt, i).

Definition failing_resolve (i : option (list DidVerificationKey)) (did : string)
    : Result unit * option (list DidVerificationKey) :=
  (Throw DOCUMENT_RESOLUTION_ERROR, i).

Definition working_resolve (i : option (list DidVerificationKey)) (did : string)
    : Result unit * option (list DidVerificationKey) :=
  (Ok tt, Some sample_keys).

(** The request validator answers with the resolvers it was given. *)
Definition echo_validateRequest (request : string) (md : option string)
    (rs : option (list string)) : Result (option (list string)) :=
  Ok rs.

(** * Properties *)

(** ** Key extraction *)

Section KeyExtractionProperties.

Variable toUpperCase : string -> string.
Variable toChecksumAddress : string -> Result string.
Variable getKeyType : option string -> Result KTYS.
Variable getAlgorithm : option string -> Result ALGORITHMS.
Variable format_truthy : KEY_FORMATS -> bool.

Local Abbreviation extract :=
  (uniExtractor toUpperCase toChecksumAddress getKeyType getAlgorithm format_truthy).
Local Abbreviation fromDifferentFormats :=
  (getVerificationKeyFromDifferentFormats toChecksumAddress format_truthy).
Local Abbreviation accepting := (accepting_handler toUpperCase).
Local Abbreviation outcome :=
  (handler_outcome toChecksumAddress getKeyType getAlgorithm format_truthy).

Lemma populated_truthy (o : option string) (s : string) :
  populated o = Some s -> truthy o = true.
Proof. unfold truthy. now intros ->. Qed.

Lemma populated_nonempty (o : option string) (s : string) :
  populated o = Some s -> o = Some s /\ s <> "".
Proof.
  unfold populated. destruct o as [x|]; [|discriminate].
  destruct (String.eqb_spec x ""); [discriminate|].
  intros [= ->]. now split.
Qed.

Lemma populated_value (o : option string) (s : string) :
  populated o = Some s -> truthy_value (PKString s) = true.
Proof.
  intros H. destruct (populated_nonempty _ _ H) as [_ Hs]. simpl.
  now destruct (String.eqb_spec s "").
Qed.

(** The guard runs before any handler looks at the type. *)
Lemma extract_guard (m : DidVerificationKeyMethod) :
  populated (m_id m) = None \/ populated (m_type m) = None ->
  extract m = Throw NO_MATCHING_PUBLIC_KEY.
Proof.
  intros H.
  unfold uniExtractor, UniversalDidPublicKeyExtractor,
    ecdsaSecp256k1RecoveryMethod2020Extractor,
    EcdsaSecp256k1RecoveryMethod2020Extractor, guarded.
  destruct H as [-> | ->]; [reflexivity|].
  now destruct (populated (m_id m)).
Qed.

(** The chain of classes computes a first-match dispatch over
    [dispatch_order]. *)
Lemma extract_dispatch (m : DidVerificationKeyMethod) (i t : string) :
  populated (m_id m) = Some i ->
  populated (m_type m) = Some t ->
  extract m = outcome m i (accepting m).
Proof.
  intros Hi Ht.
  unfold uniExtractor, UniversalDidPublicKeyExtractor,
    ecdsaSecp256k1RecoveryMethod2020Extractor,
    EcdsaSecp256k1RecoveryMethod2020Extractor,
    ecdsaSecp256r1VerificationKey2019Extractor,
    EcdsaSecp256r1VerificationKey2019Extractor,
    ecdsaSecp256k1VerificationKeyExtractor,
    EcdsaSecp256k1VerificationKeyExtractor,
    rsaVerificationKeyExtractor, RsaVerificationKeyExtractor,
    gpgVerificationKey2020Extractor, GpgVerificationKey2020Extractor,
    ed25519VerificationKeyExtractor, Ed25519VerificationKeyExtractor,
    jwsVerificationKey2020Extractor, JwsVerificationKey2020Extractor,
    EmptyDidVerificationKeyExtractor, guarded.
  rewrite Hi, Ht.
  unfold accepting_handler, dispatch_order, handler_matches.
  rewrite Ht. cbn [find handler_names]. rewrite !orb_false_r.
  repeat match goal with
         | |- context [if ?c then _ else _] => destruct c
         end; reflexivity.
Qed.

(** The probe only ever rewrites the holder's format and value. *)
Lemma probe_keeps_family (m : DidVerificationKeyMethod) (h k : DidVerificationKey) :
  probe toChecksumAddress m h = Ok k ->
  k_id k = k_id h /\ kty k = kty h /\ alg k = alg h.
Proof.
  unfold probe.
  repeat match goal with
         | |- context [match ?x with Some _ => _ | None => _ end] => destruct x
         end;
    try (intros [= <-]; now auto); try discriminate.
  destruct (toChecksumAddress s) as [c|e]; simpl; [|discriminate].
  intros [= <-]. now auto.
Qed.

Lemma fromDifferentFormats_keeps_family (m : DidVerificationKeyMethod)
    (h k : DidVerificationKey) :
  fromDifferentFormats m h = Ok k ->
  k_id k = k_id h /\ kty k = kty h /\ alg k = alg h.
Proof.
  unfold getVerificationKeyFromDifferentFormats.
  destruct (probe toChecksumAddress m h) as [held|e] eqn:Hp; simpl; [|discriminate].
  destruct (format_truthy (format held) && truthy_value (publicKey held));
    [|discriminate].
  intros [= <-]. now apply probe_keeps_family with (m := m).
Qed.

Ltac split_fields m :=
  unfold first_populated, probe_priority, field_populated, field_value, string_value,
    probe;
  cbn [find];
  destruct (publicKeyJwk m);
  destruct (populated (publicKeyHex m)) eqn:?;
  destruct (populated (publicKeyBase58 m)) eqn:?;
  destruct (populated (publicKeyBase64 m)) eqn:?;
  destruct (populated (publicKeyPem m)) eqn:?;
  destruct (populated (publicKeyPgp m)) eqn:?;
  destruct (populated (ethereumAddress m)) eqn:?;
  destruct (populated (address m)) eqn:?;
  cbn [option_map].

(** Outside the PGP and Ethereum-address slots, the cascade selects the
    first populated field of [probe_priority], with its own value. *)
Lemma probe_first_populated (m : DidVerificationKeyMethod) (h : DidVerificationKey)
    (f : EncodingField) (v : PublicKeyValue) :
  first_populated m = Some f ->
  f <> FPgpPem -> f <> FEthereumAddress ->
  field_value m f = Some v ->
  probe toChecksumAddress m h = Ok (with_key h (field_format f) v)
  /\ truthy_value v = true.
Proof.
  intros Hf Hpgp Heth Hv. revert Hf Hv.
  split_fields m; intros [= <-]; try congruence;
    cbn [option_map]; intros Hv; revert Hv;
    repeat match goal with
           | H : populated ?o = Some ?s |- _ =>
               rewrite ?H; pose proof (populated_value _ _ H); clear H
           end;
    cbn [option_map]; intros [= <-]; split; auto.
Qed.

Lemma probe_nothing_populated (m : DidVerificationKeyMethod) (h : DidVerificationKey) :
  first_populated m = None ->
  probe toChecksumAddress m h = Throw UNSUPPORTED_KEY_FORMAT.
Proof. split_fields m; intros H; try discriminate H; reflexivity. Qed.

Lemma probe_ethereum_address (m : DidVerificationKeyMethod) (h : DidVerificationKey)
    (a : string) :
  first_populated m = Some FEthereumAddress ->
  populated (ethereumAddress m) = Some a ->
  probe toChecksumAddress m h =
    (c <- toChecksumAddress a ;; Ok (with_key h ETHEREUM_ADDRESS (PKString c))).
Proof.
  intros Hf Ha. revert Hf Ha.
  split_fields m; intros H; try discriminate H; intros [= ->]; reflexivity.
Qed.

(** A handler other than the first accepts only methods without an
    Ethereum address. *)
Lemma later_handler_no_address (m : DidVerificationKeyMethod) (h : Handler) :
  accepting m = Some h -> h <> RecoveryMethod2020 ->
  populated (ethereumAddress m) = None.
Proof.
  unfold accepting_handler, dispatch_order, handler_matches.
  destruct (populated (m_type m)); cbn [find]; [|discriminate].
  match goal with |- context [if ?c then _ else _] => destruct c eqn:H1 end.
  - intros [= <-]. congruence.
  - intros _ _. apply orb_false_elim in H1 as [_ H1]. unfold truthy in H1.
    now destruct (populated (ethereumAddress m)).
Qed.

Lemma first_populated_is_populated (m : DidVerificationKeyMethod) (f : EncodingField) :
  first_populated m = Some f -> exists v, field_value m f = Some v.
Proof.
  intros H. apply find_some in H as [_ H]. unfold field_populated in H.
  destruct (field_value m f) as [v|]; [now exists v|discriminate].
Qed.

Lemma accepting_has_type (m : DidVerificationKeyMethod) (h : Handler) :
  accepting m = Some h -> exists t, populated (m_type m) = Some t.
Proof.
  unfold accepting_handler, dispatch_order, handler_matches.
  destruct (populated (m_type m)) as [t|]; [now exists t|discriminate].
Qed.

(** C1.  A verification method that carries an Ethereum address is
    classified with algorithm ES256K-R, whatever type tag it declares: every
    key that extraction returns for it has family EC and algorithm ES256K-R
    (a method without id or type is refused before any handler is asked and
    yields no key, see C6).  The reason is the EC-recoverable handler, the
    first of the chain: it matches on the address alone, so for any type tag
    it is the handler that accepts the method, and extraction is its probe
    on a holder of the method's id, family EC and algorithm ES256K-R.  When
    no encoding field of higher priority is populated, the checksummed
    address comes back non-empty and the run-time value of the format is
    truthy, the key returned has format ETHEREUM_ADDRESS and the checksummed
    address as its value. *)
Theorem ethereum_address_yields_ES256K_R
    (m : DidVerificationKeyMethod) (a : string) :
  populated (ethereumAddress m) = Some a ->
  (forall k, extract m = Ok k -> kty k = EC /\ alg k = ES256K_R)
  /\ (forall t,
        populated (m_type m) = Some t ->
        handler_matches toUpperCase m RecoveryMethod2020 = true
        /\ accepting m = Some RecoveryMethod2020)
  /\ (forall i t,
        populated (m_id m) = Some i ->
        populated (m_type m) = Some t ->
        extract m = fromDifferentFormats m (initial_holder i EC ES256K_R)
        /\ (forall k, extract m = Ok k -> k_id k = i)
        /\ (forall c,
              first_populated m = Some FEthereumAddress ->
              toChecksumAddress a = Ok c -> c <> "" ->
              format_truthy ETHEREUM_ADDRESS = true ->
              extract m = Ok {| k_id := i; kty := EC; alg := ES256K_R;
                                format := ETHEREUM_ADDRESS; publicKey := PKString c |})).
Proof.
  intros Ha.
  assert (Hmatch : forall t, populated (m_type m) = Some t ->
            handler_matches toUpperCase m RecoveryMethod2020 = true
            /\ accepting m = Some RecoveryMethod2020).
  { intros t Ht. unfold accepting_handler, dispatch_order, handler_matches.
    rewrite Ht. cbn [find]. rewrite (populated_truthy _ _ Ha), orb_true_r.
    split; reflexivity. }
  assert (Hex : forall i t, populated (m_id m) = Some i -> populated (m_type m) = Some t ->
            extract m = fromDifferentFormats m (initial_holder i EC ES256K_R)).
  { intros i t Hi Ht. rewrite (extract_dispatch m i t Hi Ht).
    destruct (Hmatch t Ht) as [_ ->]. reflexivity. }
  split; [|split; [exact Hmatch|]].
  - intros k H.
    destruct (populated (m_id m)) as [i|] eqn:Hi;
      [|rewrite extract_guard in H by (now left); discriminate].
    destruct (populated (m_type m)) as [t|] eqn:Ht;
      [|rewrite extract_guard in H by (now right); discriminate].
    rewrite (Hex i t eq_refl eq_refl) in H.
    apply fromDifferentFormats_keeps_family in H. tauto.
  - intros i t Hi Ht. split; [exact (Hex i t Hi Ht)|]. split.
    + intros k H. rewrite (Hex i t Hi Ht) in H.
      apply fromDifferentFormats_keeps_family in H. tauto.
    + intros c Hf Hc Hne Hfmt. rewrite (Hex i t Hi Ht).
      unfold getVerificationKeyFromDifferentFormats.
      rewrite (probe_ethereum_address m _ a Hf Ha), Hc. cbn [bind with_key format publicKey].
      rewrite Hfmt. cbn [truthy_value andb].
      destruct (String.eqb_spec c ""); [contradiction|reflexivity].
Qed.

(** C4 (amended).  For a verification method with an id that is accepted by
    handler 2, 3, 4 or 6 (secp256r1, secp256k1, RSA, Ed25519), format and
    value are those of the first populated field in the priority JWK > hex
    > base58 > base64 > PEM > PGP-PEM > Ethereum address > generic address
    whenever that field is not the PGP-PEM one (the key is returned when the
    format's run-time value is truthy, and the failure is
    UnsupportedKeyFormat otherwise); the Ethereum-address slot is never the
    one selected, a method with an address going to handler 1; extraction
    fails with UnsupportedKeyFormat when no field is populated.  Handler 5
    (GPG) does not probe: it takes the GPG-armoured field as a PEM key and
    fails with UnsupportedPublicKeyMethod without it. *)
Theorem type_handlers_probe_by_priority :
  (forall (m : DidVerificationKeyMethod) (i : string) (h : Handler)
          (k : KTYS) (a : ALGORITHMS),
      populated (m_id m) = Some i ->
      accepting m = Some h ->
      h <> RecoveryMethod2020 ->
      probing_family h = Some (k, a) ->
      (forall f v,
          first_populated m = Some f -> f <> FPgpPem ->
          field_value m f = Some v ->
          extract m =
            if format_truthy (field_format f)
            then Ok {| k_id := i; kty := k; alg := a;
                       format := field_format f; publicKey := v |}
            else Throw UNSUPPORTED_KEY_FORMAT)
      /\ first_populated m <> Some FEthereumAddress
      /\ (first_populated m = None -> extract m = Throw UNSUPPORTED_KEY_FORMAT))
  /\ (forall (m : DidVerificationKeyMethod) (i : string),
        populated (m_id m) = Some i ->
        accepting m = Some Gpg ->
        extract m =
          match populated (publicKeyGpg m) with
          | Some g => Ok {| k_id := i; kty := RSA; alg := RS256;
                            format := PKCS8_PEM; publicKey := PKString g |}
          | None => Throw UNSUPPORTED_PUBLIC_KEY_METHOD
          end).
Proof.
  split.
  - intros m i h k a Hi Hacc Hnot Hfam.
    destruct (accepting_has_type m h Hacc) as [t Ht].
    assert (Hex : extract m = fromDifferentFormats m (initial_holder i k a)).
    { rewrite (extract_dispatch m i t Hi Ht), Hacc.
      destruct h; try discriminate Hfam; try congruence;
        injection Hfam as <- <-; reflexivity. }
    pose proof (later_handler_no_address m h Hacc Hnot) as Hnoeth.
    assert (Hslot : first_populated m <> Some FEthereumAddress).
    { intros Hf. destruct (first_populated_is_populated m _ Hf) as [v Hv].
      cbn [field_value] in Hv. unfold string_value in Hv.
      rewrite Hnoeth in Hv. discriminate. }
    split; [|split; [exact Hslot|]].
    + intros f v Hf Hpgp Hv.
      assert (Heth : f <> FEthereumAddress) by congruence.
      destruct (probe_first_populated m (initial_holder i k a) f v Hf Hpgp Heth Hv)
        as [Hp Htv].
      rewrite Hex. unfold getVerificationKeyFromDifferentFormats.
      rewrite Hp. cbn [bind with_key format publicKey initial_holder k_id kty alg].
      rewrite Htv, andb_true_r. reflexivity.
    + intros Hnone. rewrite Hex. unfold getVerificationKeyFromDifferentFormats.
      now rewrite (probe_nothing_populated m _ Hnone).
  - intros m i Hi Hacc.
    destruct (accepting_has_type m Gpg Hacc) as [t Ht].
    rewrite (extract_dispatch m i t Hi Ht), Hacc. reflexivity.
Qed.

Lemma probe_pgp_branch (m : DidVerificationKeyMethod) (h : DidVerificationKey) :
  first_populated m = Some FPgpPem ->
  probe toChecksumAddress m h = Ok (with_key h PKCS8_PEM (value_of (publicKeyGpg m))).
Proof. split_fields m; intros H; try discriminate H; reflexivity. Qed.

(** The PGP slot of the probe.  For a method with an id accepted by handler
    2, 3, 4 or 6 whose first populated field is [publicKeyPgp], the value
    taken is the one of [publicKeyGpg], a different field: the key is
    returned, with that value and the PEM format, when the value is
    non-empty and the run-time value of the PEM format is truthy, and
    extraction fails with UnsupportedKeyFormat otherwise: whenever
    [publicKeyGpg] is absent or empty, and whenever the value of the PEM
    format is falsy. *)
Theorem pgp_slot_takes_the_gpg_field
    (m : DidVerificationKeyMethod) (i : string) (h : Handler)
    (k : KTYS) (a : ALGORITHMS) :
  populated (m_id m) = Some i ->
  accepting m = Some h ->
  h <> RecoveryMethod2020 ->
  probing_family h = Some (k, a) ->
  first_populated m = Some FPgpPem ->
  extract m =
    if format_truthy PKCS8_PEM && truthy_value (value_of (publicKeyGpg m))
    then Ok {| k_id := i; kty := k; alg := a; format := PKCS8_PEM;
               publicKey := value_of (publicKeyGpg m) |}
    else Throw UNSUPPORTED_KEY_FORMAT.
Proof.
  intros Hi Hacc Hnot Hfam Hpgp.
  destruct (accepting_has_type m h Hacc) as [t Ht].
  rewrite (extract_dispatch m i t Hi Ht), Hacc.
  assert (E : outcome m i (Some h) = fromDifferentFormats m (initial_holder i k a)).
  { destruct h; try discriminate Hfam; try congruence;
      injection Hfam as <- <-; reflexivity. }
  rewrite E. unfold getVerificationKeyFromDifferentFormats.
  rewrite (probe_pgp_branch m _ Hpgp). reflexivity.
Qed.

(** C6.  Key extraction fails with NoMatchingPublicKey whenever the
    verification method lacks its id or its type, and a method that has both
    fails with UnsupportedPublicKeyMethod when no handler of the chain
    claims it. *)
Theorem extraction_failures (m : DidVerificationKeyMethod) :
  (populated (m_id m) = None \/ populated (m_type m) = None ->
     extract m = Throw NO_MATCHING_PUBLIC_KEY)
  /\ (forall i t,
        populated (m_id m) = Some i -> populated (m_type m) = Some t ->
        (forall h, In h dispatch_order -> handler_matches toUpperCase m h = false) ->
        extract m = Throw UNSUPPORTED_PUBLIC_KEY_METHOD).
Proof.
  split.
  - apply extract_guard.
  - intros i t Hi Ht Hnone.
    rewrite (extract_dispatch m i t Hi Ht).
    destruct (accepting m) as [h|] eqn:Hacc; [|reflexivity].
    apply find_some in Hacc as [Hin Hm]. rewrite (Hnone h Hin) in Hm. discriminate.
Qed.

(** *** Further properties of the chain *)

Lemma probe_format_produced (m : DidVerificationKeyMethod) (h k : DidVerificationKey) :
  probe toChecksumAddress m h = Ok k -> format k <> PKCS1_PEM.
Proof.
  unfold probe.
  repeat match goal with
         | |- context [match ?x with Some _ => _ | None => _ end] => destruct x
         end;
    try (intros [= <-]; discriminate); try discriminate.
  destruct (toChecksumAddress s) as [c|e]; simpl; [|discriminate].
  intros [= <-]. discriminate.
Qed.

Lemma fromDifferentFormats_checked (m : DidVerificationKeyMethod)
    (h k : DidVerificationKey) :
  fromDifferentFormats m h = Ok k ->
  format_truthy (format k) = true
  /\ truthy_value (publicKey k) = true
  /\ format k <> PKCS1_PEM.
Proof.
  unfold getVerificationKeyFromDifferentFormats.
  destruct (probe toChecksumAddress m h) as [held|e] eqn:Hp; simpl; [|discriminate].
  destruct (format_truthy (format held) && truthy_value (publicKey held)) eqn:E;
    [|discriminate].
  intros [= <-]. apply andb_true_iff in E as [E1 E2].
  repeat split; auto. now apply probe_format_produced with (m := m) (h := h).
Qed.

(** The outcome of every handler, by cases: a key carries the id handed in,
    a truthy value, a format other than PKCS1_PEM, and, outside handler 7,
    the family and algorithm of the handler. *)
Lemma outcome_key (m : DidVerificationKeyMethod) (i : string) (h : option Handler)
    (k : DidVerificationKey) :
  outcome m i h = Ok k ->
  k_id k = i
  /\ truthy_value (publicKey k) = true
  /\ format k <> PKCS1_PEM
  /\ (h <> Some Jws2020 ->
        In (kty k, alg k)
          [(EC, ES256K_R); (EC, ES256); (EC, ES256K); (RSA, RS256); (OKP, EdDSA)])
  /\ (forall h' fam, h = Some h' -> probing_family h' = Some fam -> fam = (kty k, alg k)).
Proof.
  destruct h as [[]|]; cbn [handler_outcome]; try discriminate;
    try (intros H;
         destruct (fromDifferentFormats_keeps_family _ _ _ H) as (E1 & E2 & E3);
         destruct (fromDifferentFormats_checked _ _ _ H) as (_ & F2 & F3);
         cbn [initial_holder k_id kty alg] in E1, E2, E3;
         rewrite E2, E3; repeat split; auto;
         [ intros _; cbn; tauto
         | intros h' fam [= <-]; cbn [probing_family]; now intros [= <-] ]).
  - (* Gpg *)
    destruct (populated (publicKeyGpg m)) as [g|] eqn:Hg; [|discriminate].
    intros [= <-]. cbn [k_id publicKey format kty alg]. repeat split.
    + now apply populated_value with (o := publicKeyGpg m).
    + discriminate.
    + intros _. cbn. tauto.
    + intros h' fam [= <-]. discriminate.
  - (* Jws2020 *)
    destruct (publicKeyJwk m) as [j|]; [|discriminate].
    destruct (getKeyType (jwk_member j "kty")) as [ky|e]; cbn [bind]; [|discriminate].
    destruct (getAlgorithm (jwk_member j "alg")) as [a|e]; cbn [bind]; [|discriminate].
    intros [= <-]. cbn [k_id publicKey format kty alg truthy_value]. repeat split.
    + discriminate.
    + congruence.
    + intros h' fam [= <-]. discriminate.
Qed.

Lemma extract_ok_inv (m : DidVerificationKeyMethod) (k : DidVerificationKey) :
  extract m = Ok k ->
  exists i t,
    populated (m_id m) = Some i /\ populated (m_type m) = Some t
    /\ outcome m i (accepting m) = Ok k.
Proof.
  intros H.
  destruct (populated (m_id m)) as [i|] eqn:Hi;
    [|rewrite extract_guard in H by (now left); discriminate].
  destruct (populated (m_type m)) as [t|] eqn:Ht;
    [|rewrite extract_guard in H by (now right); discriminate].
  exists i, t. repeat split. now rewrite <- (extract_dispatch m i t Hi Ht).
Qed.

(** Every key the chain returns carries the id of its method and a public
    key value that is truthy: the holder's initial empty string, an empty
    field or [undefined] never comes out. *)
Theorem extracted_key_is_filled (m : DidVerificationKeyMethod) (k : DidVerificationKey) :
  extract m = Ok k ->
  populated (m_id m) = Some (k_id k) /\ truthy_value (publicKey k) = true.
Proof.
  intros H. destruct (extract_ok_inv m k H) as (i & t & Hi & Ht & Ho).
  destruct (outcome_key m i _ k Ho) as (E & V & _). subst i. now split.
Qed.

(** Family and algorithm of a returned key are those of the handler that
    claimed the method, whatever encoding field was used: outside the JWS
    handler only five pairs occur; and no handler ever returns the format
    PKCS1_PEM. *)
Theorem extracted_family_from_handler
    (m : DidVerificationKeyMethod) (k : DidVerificationKey) :
  extract m = Ok k ->
  format k <> PKCS1_PEM
  /\ (accepting m <> Some Jws2020 ->
        In (kty k, alg k)
          [(EC, ES256K_R); (EC, ES256); (EC, ES256K); (RSA, RS256); (OKP, EdDSA)])
  /\ (forall h fam,
        accepting m = Some h -> probing_family h = Some fam -> fam = (kty k, alg k)).
Proof.
  intros H. destruct (extract_ok_inv m k H) as (i & t & Hi & Ht & Ho).
  destruct (outcome_key m i _ k Ho) as (_ & _ & F & T & P). repeat split; auto.
Qed.

Lemma accepting_by_upper_case (m : DidVerificationKeyMethod) (t1 t2 : string) :
  populated (Some t1) = Some t1 -> populated (Some t2) = Some t2 ->
  toUpperCase t1 = toUpperCase t2 ->
  accepting (with_type m (Some t1)) = accepting (with_type m (Some t2)).
Proof.
  intros H1 H2 E. unfold accepting_handler, dispatch_order, handler_matches.
  cbn [m_type with_type ethereumAddress]. rewrite H1, H2, E. reflexivity.
Qed.

(** The type tag is read in upper case only: two methods that differ in the
    letter case of their type tag alone (the same upper-case form) are
    extracted alike. *)
Theorem extraction_ignores_letter_case
    (m : DidVerificationKeyMethod) (t1 t2 : string) :
  t1 <> "" -> t2 <> "" ->
  toUpperCase t1 = toUpperCase t2 ->
  extract (with_type m (Some t1)) = extract (with_type m (Some t2)).
Proof.
  intros N1 N2 E.
  assert (H1 : populated (Some t1) = Some t1).
  { unfold populated. now destruct (String.eqb_spec t1 ""). }
  assert (H2 : populated (Some t2) = Some t2).
  { unfold populated. now destruct (String.eqb_spec t2 ""). }
  destruct (populated (m_id m)) as [i|] eqn:Hi.
  - rewrite (extract_dispatch (with_type m (Some t1)) i t1 Hi H1).
    rewrite (extract_dispatch (with_type m (Some t2)) i t2 Hi H2).
    rewrite (accepting_by_upper_case m t1 t2 H1 H2 E).
    destruct (accepting (with_type m (Some t2))) as [[]|]; reflexivity.
  - rewrite !extract_guard by (now left). reflexivity.
Qed.

(** A method claimed by the JWS handler is read from its JWK alone: family
    and algorithm are what [getKeyType] and [getAlgorithm] make of the JWK's
    [kty] and [alg], an error of theirs is passed on, and without a JWK the
    method is refused with UnsupportedPublicKeyMethod even when other
    encoding fields are populated. *)
Theorem jws_handler_reads_the_jwk (m : DidVerificationKeyMethod) (i : string) :
  populated (m_id m) = Some i ->
  accepting m = Some Jws2020 ->
  (publicKeyJwk m = None -> extract m = Throw UNSUPPORTED_PUBLIC_KEY_METHOD)
  /\ (forall j e, publicKeyJwk m = Some j ->
        getKeyType (jwk_member j "kty") = Throw e -> extract m = Throw e)
  /\ (forall j ky e, publicKeyJwk m = Some j ->
        getKeyType (jwk_member j "kty") = Ok ky ->
        getAlgorithm (jwk_member j "alg") = Throw e -> extract m = Throw e)
  /\ (forall j ky a, publicKeyJwk m = Some j ->
        getKeyType (jwk_member j "kty") = Ok ky ->
        getAlgorithm (jwk_member j "alg") = Ok a ->
        extract m = Ok {| k_id := i; kty := ky; alg := a; format := JWK;
                          publicKey := PKJwk j |}).
Proof.
  intros Hi Hacc. destruct (accepting_has_type m Jws2020 Hacc) as [t Ht].
  rewrite (extract_dispatch m i t Hi Ht), Hacc. cbn [handler_outcome].
  repeat split.
  - now intros ->.
  - intros j e -> ->. reflexivity.
  - intros j ky e -> -> ->. reflexivity.
  - intros j ky a -> -> ->. reflexivity.
Qed.

(** The EC-recoverable handler probes in the same priority as the others, so
    an encoded key outranks the address: a method it claims (by type tag or
    by address) whose first populated field is a JWK, hex, base58, base64 or
    PEM key yields an ES256K-R key with that field's format and value, and
    [toChecksumAddress] is not consulted. *)
Theorem recovery_handler_prefers_encoded_key
    (m : DidVerificationKeyMethod) (i : string) (f : EncodingField)
    (v : PublicKeyValue) :
  populated (m_id m) = Some i ->
  accepting m = Some RecoveryMethod2020 ->
  first_populated m = Some f ->
  f <> FPgpPem -> f <> FEthereumAddress ->
  field_value m f = Some v ->
  extract m =
    if format_truthy (field_format f)
    then Ok {| k_id := i; kty := EC; alg := ES256K_R;
               format := field_format f; publicKey := v |}
    else Throw UNSUPPORTED_KEY_FORMAT.
Proof.
  intros Hi Hacc Hf Hpgp Heth Hv.
  destruct (accepting_has_type m _ Hacc) as [t Ht].
  rewrite (extract_dispatch m i t Hi Ht), Hacc. cbn [handler_outcome].
  destruct (probe_first_populated m (initial_holder i EC ES256K_R) f v Hf Hpgp Heth Hv)
    as [Hp Htv].
  unfold getVerificationKeyFromDifferentFormats.
  rewrite Hp. cbn [bind with_key format publicKey initial_holder k_id kty alg].
  rewrite Htv, andb_true_r. reflexivity.
Qed.

Lemma NoDup_app_disjoint {A : Type} (l1 l2 : list A) (x : A) :
  NoDup (l1 ++ l2) -> In x l1 -> ~ In x l2.
Proof.
  induction l1 as [|a l1 IH]; cbn; intros Hd Hin; [destruct Hin|].
  inversion Hd as [|? ? Ha Hd']; subst. destruct Hin as [<-|Hin].
  - intros Hx. apply Ha. apply in_or_app. now right.
  - now apply IH.
Qed.

Lemma in_two_blocks {A B : Type} (f : A -> list B) (l : list A) (a b : A) (x : B) :
  NoDup l -> NoDup (flat_map f l) ->
  In a l -> In b l -> In x (f a) -> In x (f b) -> a = b.
Proof.
  induction l as [|c l IH]; intros Hl Hd Ha Hb Hxa Hxb; [destruct Ha|].
  cbn [flat_map] in Hd.
  pose proof (NoDup_app_remove_l _ _ Hd) as Htail.
  inversion Hl as [|? ? Hc Hl']; subst.
  destruct Ha as [<-|Ha], Hb as [<-|Hb]; auto.
  - exfalso. apply (NoDup_app_disjoint _ _ x Hd Hxa). apply in_flat_map. now exists b.
  - exfalso. apply (NoDup_app_disjoint _ _ x Hd Hxb). apply in_flat_map. now exists a.
Qed.

Lemma dispatch_order_complete (h : Handler) : In h dispatch_order.
Proof. destruct h; cbn; tauto. Qed.

Lemma dispatch_order_NoDup : NoDup dispatch_order.
Proof.
  unfold dispatch_order.
  repeat (constructor; [cbn; intros H; repeat destruct H as [H|H]; discriminate H || exact H|]).
  constructor.
Qed.

(** When the case mapping keeps the ten handler names apart, a type tag is
    claimed by at most one handler, so the order of the chain matters for the
    address test of its first handler only: a method without an Ethereum
    address is accepted by a handler exactly when its tag is one of that
    handler's names. *)
Theorem type_tag_names_one_handler :
  NoDup (flat_map (fun h => new_names toUpperCase (handler_names h)) dispatch_order) ->
  forall (m : DidVerificationKeyMethod) (t : string) (h : Handler),
    populated (m_type m) = Some t ->
    populated (ethereumAddress m) = None ->
    (accepting m = Some h <->
     includes (new_names toUpperCase (handler_names h)) (toUpperCase t) = true).
Proof.
  intros Hd m t h Ht Heth.
  assert (Hm : forall h', handler_matches toUpperCase m h' =
                          includes (new_names toUpperCase (handler_names h'))
                            (toUpperCase t)).
  { intros h'. unfold handler_matches, truthy. rewrite Ht, Heth.
    destruct h'; now rewrite orb_false_r. }
  split.
  - intros Hacc. apply find_some in Hacc as [_ Hacc]. now rewrite Hm in Hacc.
  - intros Hin.
    destruct (accepting m) as [h'|] eqn:Hacc.
    + f_equal. apply find_some in Hacc as [_ Hacc]. rewrite Hm in Hacc.
      unfold includes in Hin, Hacc.
      apply existsb_exists in Hin as (x & Hx & Ex).
      apply existsb_exists in Hacc as (y & Hy & Ey).
      apply String.eqb_eq in Ex, Ey. subst x y.
      apply (in_two_blocks (fun h => new_names toUpperCase (handler_names h))
               dispatch_order h' h (toUpperCase t));
        auto using dispatch_order_NoDup, dispatch_order_complete.
    + exfalso. unfold accepting_handler in Hacc.
      pose proof (find_none _ _ Hacc h (dispatch_order_complete h)) as Hno.
      rewrite Hm in Hno. congruence.
Qed.

End KeyExtractionProperties.

(** ** The combined resolver *)

Section ResolutionProperties.

Variable DidDocument : Type.
Variable uniResolver : DidResolver DidDocument.

Lemma for_of_resolvers_found (rs : list (DidResolver DidDocument)) (did : string)
    (doc : DidDocument) (tried : list (DidResolver DidDocument)) :
  for_of_resolvers rs did = (Ok doc, tried) ->
  exists before r after,
    rs = before ++ r :: after
    /\ Forall (gives_nothing did) before
    /\ resolve r did = Ok (Some doc)
    /\ tried = before ++ [r].
Proof.
  revert tried. induction rs as [|r rs IH]; intros tried; cbn [for_of_resolvers].
  - discriminate.
  - destruct (resolve r did) as [[d|]|e] eqn:Hr.
    + intros [= -> <-]. exists [], r, rs. repeat split; auto.
    + destruct (for_of_resolvers rs did) as [res tr] eqn:Hrest.
      intros [= -> <-].
      destruct (IH tr eq_refl) as (before & r' & after & -> & Hb & Hr' & ->).
      exists (r :: before), r', after. repeat split; auto.
      constructor; auto. unfold gives_nothing. now rewrite Hr.
    + destruct (for_of_resolvers rs did) as [res tr] eqn:Hrest.
      intros [= -> <-].
      destruct (IH tr eq_refl) as (before & r' & after & -> & Hb & Hr' & ->).
      exists (r :: before), r', after. repeat split; auto.
      constructor; auto. unfold gives_nothing. now rewrite Hr.
Qed.

Lemma for_of_resolvers_exhausted (rs : list (DidResolver DidDocument)) (did : string)
    (e : Error) (tried : list (DidResolver DidDocument)) :
  for_of_resolvers rs did = (Throw e, tried) ->
  e = DOCUMENT_RESOLUTION_ERROR /\ tried = rs /\ Forall (gives_nothing did) rs.
Proof.
  revert tried. induction rs as [|r rs IH]; intros tried; cbn [for_of_resolvers].
  - intros [= <- <-]. auto.
  - destruct (resolve r did) as [[d|]|e'] eqn:Hr; [discriminate| |];
      destruct (for_of_resolvers rs did) as [res tr] eqn:Hrest;
      intros [= -> <-];
      destruct (IH tr eq_refl) as (-> & -> & Hall);
      repeat split; auto; constructor; auto; unfold gives_nothing; now rewrite Hr.
Qed.

Lemma resolveDidDocumet_chain (this : CombinedDidResolver DidDocument) (did : string) :
  resolveDidDocumet uniResolver this did =
    (for_of_resolvers (effective_chain uniResolver this) did,
     {| resolvers := effective_chain uniResolver this |}).
Proof.
  unfold resolveDidDocumet, effective_chain, addResolver.
  destruct this as [[|r rs]]; reflexivity.
Qed.

(** C3.  One resolution runs over the configured resolvers, or over the
    universal fallback alone when none is configured, and the receiver keeps
    that chain.  When it returns a document, the document is the first
    non-empty answer in list order: every resolver before the one that
    answered was called and either failed or returned nothing, and no
    resolver after it was called.  When it fails, the failure is
    DocumentResolutionError, every resolver of the chain was called, in
    order, and each failed or returned nothing. *)
Theorem combined_resolver_first_document
    (this this' : CombinedDidResolver DidDocument) (did : string)
    (result : Result DidDocument) (tried : list (DidResolver DidDocument)) :
  resolveDidDocumet uniResolver this did = (result, tried, this') ->
  resolvers this' = effective_chain uniResolver this
  /\ (resolvers this = [] -> resolvers this' = [uniResolver])
  /\ (resolvers this <> [] -> this' = this)
  /\ match result with
     | Ok doc =>
         exists before r after,
           effective_chain uniResolver this = before ++ r :: after
           /\ Forall (gives_nothing did) before
           /\ resolve r did = Ok (Some doc)
           /\ tried = before ++ [r]
     | Throw e =>
         e = DOCUMENT_RESOLUTION_ERROR
         /\ tried = effective_chain uniResolver this
         /\ Forall (gives_nothing did) (effective_chain uniResolver this)
     end.
Proof.
  rewrite resolveDidDocumet_chain. intros [= Hres <-].
  split; [reflexivity|]. split; [|split].
  - unfold effective_chain. now intros ->.
  - unfold effective_chain. destruct this as [[|r rs]]; cbn; [congruence|reflexivity].
  - destruct result as [doc|e].
    + now apply for_of_resolvers_found.
    + now apply for_of_resolvers_exhausted.
Qed.

(** *** Further properties of the chain of resolvers *)

Lemma effective_chain_nonempty (this : CombinedDidResolver DidDocument) :
  resolvers this <> [] -> effective_chain uniResolver this = resolvers this.
Proof. unfold effective_chain. destruct (resolvers this); congruence. Qed.

Lemma for_of_resolvers_app (rs1 rs2 : list (DidResolver DidDocument)) (did : string) :
  for_of_resolvers (rs1 ++ rs2) did =
    match for_of_resolvers rs1 did with
    | (Ok doc, tried) => (Ok doc, tried)
    | (Throw _, _) =>
        let (r, tried2) := for_of_resolvers rs2 did in (r, rs1 ++ tried2)
    end.
Proof.
  induction rs1 as [|r rs1 IH]; cbn [for_of_resolvers app].
  - now destruct (for_of_resolvers rs2 did).
  - destruct (resolve r did) as [[d|]|e]; [reflexivity| |];
      rewrite IH; destruct (for_of_resolvers rs1 did) as [[d'|e'] tr];
      try reflexivity; now destruct (for_of_resolvers rs2 did).
Qed.

(** Once a resolution on an empty chain has installed the fallback, it
    stays, and stays first: a second resolution adds nothing, a resolver
    added afterwards comes after the fallback and is not called when the
    fallback answers.  Adding the resolver before the first resolution gives
    a chain without the fallback instead. *)
Theorem fallback_stays_first (did1 did2 : string) (r : DidResolver DidDocument) :
  let c1 := snd (resolveDidDocumet uniResolver (Build_CombinedDidResolver []) did1) in
  resolvers c1 = [uniResolver]
  /\ snd (resolveDidDocumet uniResolver c1 did2) = c1
  /\ resolvers (addResolver c1 r) = [uniResolver; r]
  /\ (forall doc, resolve uniResolver did2 = Ok (Some doc) ->
        fst (resolveDidDocumet uniResolver (addResolver c1 r) did2)
        = (Ok doc, [uniResolver]))
  /\ resolvers (snd (resolveDidDocumet uniResolver
                       (addResolver (Build_CombinedDidResolver []) r) did1)) = [r].
Proof.
  cbn. repeat split; auto.
  intros doc Hdoc. now rewrite Hdoc.
Qed.

(** Appending a resolver to a chain that is not empty never changes a
    resolution that succeeds (same document, same resolvers called); a
    resolution that fails becomes the answer of the new resolver alone, called
    after all the others. *)
Theorem appended_resolver_is_last_resort
    (this : CombinedDidResolver DidDocument) (r : DidResolver DidDocument)
    (did : string) :
  resolvers this <> [] ->
  (forall doc tried this',
      resolveDidDocumet uniResolver this did = (Ok doc, tried, this') ->
      resolveDidDocumet uniResolver (addResolver this r) did
      = (Ok doc, tried, addResolver this r))
  /\ (forall e tried this',
        resolveDidDocumet uniResolver this did = (Throw e, tried, this') ->
        resolveDidDocumet uniResolver (addResolver this r) did
        = (match resolve r did with
           | Ok (Some doc) => Ok doc
           | _ => Throw DOCUMENT_RESOLUTION_ERROR
           end,
           resolvers this ++ [r], addResolver this r)).
Proof.
  intros Hne.
  assert (Hadd : effective_chain uniResolver (addResolver this r) = resolvers this ++ [r]).
  { apply effective_chain_nonempty. cbn. now destruct (resolvers this). }
  assert (Hsame : {| resolvers := resolvers this ++ [r] |} = addResolver this r)
    by reflexivity.
  rewrite !resolveDidDocumet_chain, Hadd, (effective_chain_nonempty this Hne),
    for_of_resolvers_app, Hsame.
  split.
  - intros doc tried this' [= -> _]. reflexivity.
  - intros e tried this' [= H _]. rewrite H.
    destruct (for_of_resolvers_exhausted _ _ _ _ H) as (_ & -> & _).
    cbn [for_of_resolvers].
    destruct (resolve r did) as [[d|]|e']; cbn; now rewrite ?app_nil_r.
Qed.

End ResolutionProperties.

(** ** The product [Math.random() * length] in doubles *)

Section DoubleArithmetic.

Local Open Scope Z_scope.

(** Rounding to nearest moves a quotient to one of its two neighbours, leaves
    an exact quotient alone, and is off by at most half a unit. *)
Lemma round_half_even_bounds (P s : Z) :
  0 <= P -> 1 <= s ->
  P / 2 ^ s <= round_half_even P s <= P / 2 ^ s + 1
  /\ (P mod 2 ^ s = 0 -> round_half_even P s = P / 2 ^ s)
  /\ round_half_even P s * 2 ^ s <= P + 2 ^ (s - 1)
  /\ P - 2 ^ (s - 1) <= round_half_even P s * 2 ^ s.
Proof.
  intros HP Hs. unfold round_half_even. cbv zeta.
  rewrite Z.shiftr_div_pow2 by lia.
  assert (H2 : 2 ^ s = 2 * 2 ^ (s - 1)).
  { replace s with (Z.succ (s - 1)) at 1 by lia. apply Z.pow_succ_r. lia. }
  assert (Hh : 0 < 2 ^ (s - 1)) by (apply Z.pow_pos_nonneg; lia).
  pose proof (Z.div_mod P (2 ^ s) ltac:(lia)) as Hdm.
  pose proof (Z.mod_pos_bound P (2 ^ s) ltac:(lia)) as Hm.
  set (q := P / 2 ^ s) in *. set (r := P mod 2 ^ s) in *. set (h := 2 ^ (s - 1)) in *.
  destruct (r <? h) eqn:E1; [apply Z.ltb_lt in E1|apply Z.ltb_ge in E1].
  - repeat split; try lia; nia.
  - destruct (h <? r) eqn:E2; [apply Z.ltb_lt in E2|apply Z.ltb_ge in E2].
    + repeat split; try lia; nia.
    + destruct (Z.even q); repeat split; try lia; nia.
Qed.

(** A mantissa of more than 53 bits is shifted by the number of bits in
    excess. *)
Lemma log2_shift (P : Z) :
  2 ^ 53 <= P ->
  1 <= Z.log2 P - 52
  /\ 2 ^ 53 * 2 ^ (Z.log2 P - 52 - 1) <= P
  /\ P < 2 ^ 53 * 2 ^ (Z.log2 P - 52).
Proof.
  intros HP.
  assert (H53 : 53 <= Z.log2 P).
  { rewrite <- (Z.log2_pow2 53) by lia. apply Z.log2_le_mono. exact HP. }
  assert (Hpos : 0 < P) by (pose proof (Z.pow_pos_nonneg 2 53); lia).
  destruct (Z.log2_spec P Hpos) as [Hlo Hhi].
  split; [lia|]. split.
  - rewrite <- Z.pow_add_r by lia.
    replace (53 + (Z.log2 P - 52 - 1)) with (Z.log2 P) by lia. exact Hlo.
  - rewrite <- Z.pow_add_r by lia.
    replace (53 + (Z.log2 P - 52)) with (Z.succ (Z.log2 P)) by lia. exact Hhi.
Qed.

Lemma Double_value_nonneg (d : Double) :
  is_double d -> (0 <= Double_value d)%Q.
Proof.
  intros [[Hm0 _] _]. unfold Double_value, Qle.
  destruct (0 <=? exponent d) eqn:E; cbn [Qnum Qden inject_Z]; [apply Z.leb_le in E|].
  - assert (0 < 2 ^ exponent d) by (apply Z.pow_pos_nonneg; lia). nia.
  - lia.
Qed.

(** A double below 1, in integers. *)
Lemma below_one (d : Double) :
  is_double d -> (Double_value d < 1)%Q ->
  mantissa d = 0 \/ (exponent d < 0 /\ mantissa d < 2 ^ (- exponent d)).
Proof.
  intros [[Hm0 Hm1] _]. unfold Double_value.
  destruct (0 <=? exponent d) eqn:E; [apply Z.leb_le in E|apply Z.leb_gt in E].
  - unfold Qlt. cbn. intros H. left.
    assert (0 < 2 ^ exponent d) by (apply Z.pow_pos_nonneg; lia). nia.
  - unfold Qlt. cbn. intros H. right. split; [lia|].
    rewrite Z2Pos.id in H by (apply Z.pow_pos_nonneg; lia). lia.
Qed.

(** The rounded product stays below every integer that the exact product of
    the next draw on the grid of [d] does not exceed. *)
Lemma product_floor_lt (d : Double) (n b : Z) :
  is_double d -> exponent d < 0 -> mantissa d < 2 ^ (- exponent d) -> 1 <= n ->
  mantissa d * n + n <= b * 2 ^ (- exponent d) ->
  Double_floor (Double_times d n) < b.
Proof.
  intros Hd He Hm Hn Hb. unfold Double_floor, Double_times.
  set (E := - exponent d) in *. set (P := mantissa d * n) in *.
  assert (HE : 0 < 2 ^ E) by (apply Z.pow_pos_nonneg; unfold E; lia).
  destruct Hd as [[Hm0 Hm1] _].
  assert (HP0 : 0 <= P) by (unfold P; nia).
  destruct (P <? 2 ^ 53) eqn:Ex; [apply Z.ltb_lt in Ex|apply Z.ltb_ge in Ex];
    cbn [mantissa exponent].
  - rewrite Z.shiftl_div_pow2 by lia. fold E.
    apply Z.div_lt_upper_bound; lia.
  - destruct (log2_shift P Ex) as (Hs & Hlo & Hhi).
    set (s := Z.log2 P - 52) in *.
    destruct (round_half_even_bounds P s HP0 Hs) as (_ & _ & Hup & _).
    set (q := round_half_even P s) in *.
    assert (Hhalf : 2 ^ (s - 1) < n).
    { assert (0 < 2 ^ (s - 1)) by (apply Z.pow_pos_nonneg; lia).
      assert (P < 2 ^ 53 * n) by (unfold P; nia). nia. }
    assert (Hq : q * 2 ^ s < b * 2 ^ E) by lia.
    assert (Hs2 : 0 < 2 ^ s) by (apply Z.pow_pos_nonneg; lia).
    destruct (Z.le_gt_cases 0 (exponent d + s)) as [Hge|Hlt].
    + rewrite Z.shiftl_mul_pow2 by lia.
      assert (Hsp : 2 ^ s = 2 ^ (exponent d + s) * 2 ^ E).
      { rewrite <- Z.pow_add_r by (unfold E; lia). f_equal. unfold E. lia. }
      rewrite Hsp in Hq. nia.
    + rewrite Z.shiftl_div_pow2 by lia.
      assert (HG : 0 < 2 ^ (- (exponent d + s))) by (apply Z.pow_pos_nonneg; lia).
      assert (Hsp : 2 ^ E = 2 ^ (- (exponent d + s)) * 2 ^ s).
      { rewrite <- Z.pow_add_r by lia. f_equal. unfold E. lia. }
      apply Z.div_lt_upper_bound; [lia|]. rewrite Hsp in Hq. nia.
Qed.

(** With at most 2^53 entries a rounded product keeps an exponent that is
    not positive: every integer is on its grid. *)
Lemma product_exponent (d : Double) (n : Z) :
  is_double d -> exponent d < 0 -> mantissa d < 2 ^ (- exponent d) ->
  1 <= n <= 2 ^ 53 -> 2 ^ 53 <= mantissa d * n ->
  exponent d + (Z.log2 (mantissa d * n) - 52) <= 0.
Proof.
  intros Hd He Hm [Hn Hn53] Ex.
  set (E := - exponent d) in *. set (P := mantissa d * n) in *.
  destruct (log2_shift P Ex) as (Hs & Hlo & Hhi).
  set (s := Z.log2 P - 52) in *.
  destruct Hd as [[Hm0 Hm1] _].
  assert (HE : 0 < 2 ^ E) by (apply Z.pow_pos_nonneg; unfold E; lia).
  assert (H1 : 2 ^ 53 * 2 ^ (s - 1) < 2 ^ E * 2 ^ 53).
  { assert (P < 2 ^ E * n) by (unfold P; nia). nia. }
  assert (H2 : 2 ^ (s - 1) < 2 ^ E) by nia.
  apply Z.pow_lt_mono_r_iff in H2; unfold E in *; lia.
Qed.

(** Rounding does not cross an integer: the floor of the rounded product
    lies between any two integers that enclose the exact product, and it
    reaches the upper one only when the rounded product is that integer. *)
Lemma product_floor_grid (d : Double) (n a b : Z) :
  is_double d -> exponent d < 0 -> mantissa d < 2 ^ (- exponent d) ->
  1 <= n <= 2 ^ 53 ->
  (a * 2 ^ (- exponent d) <= mantissa d * n -> a <= Double_floor (Double_times d n))
  /\ (mantissa d * n <= b * 2 ^ (- exponent d) ->
      Double_floor (Double_times d n) <= b
      /\ (Double_floor (Double_times d n) = b ->
          mantissa (Double_times d n) = b * 2 ^ (- exponent (Double_times d n)))).
Proof.
  intros Hd He Hm Hn.
  pose proof (product_exponent d n Hd He Hm Hn) as Hes.
  unfold Double_floor, Double_times.
  set (E := - exponent d) in *. set (P := mantissa d * n) in *.
  assert (HE : 0 < 2 ^ E) by (apply Z.pow_pos_nonneg; unfold E; lia).
  destruct Hd as [[Hm0 Hm1] _].
  assert (HP0 : 0 <= P) by (unfold P; nia).
  destruct (P <? 2 ^ 53) eqn:Ex; [apply Z.ltb_lt in Ex|apply Z.ltb_ge in Ex];
    cbn [mantissa exponent].
  - rewrite Z.shiftl_div_pow2 by lia. fold E. split.
    + intros Ha. apply Z.div_le_lower_bound; lia.
    + intros Hb. split.
      * apply Z.div_le_upper_bound; [lia|]. lia.
      * intros Hfl. pose proof (Z.div_mod P (2 ^ E) ltac:(lia)).
        pose proof (Z.mod_pos_bound P (2 ^ E) HE). nia.
  - specialize (Hes Ex).
    destruct (log2_shift P Ex) as (Hs & Hlo & Hhi).
    set (s := Z.log2 P - 52) in *.
    destruct (round_half_even_bounds P s HP0 Hs) as ((Hq1 & Hq2) & Hq0 & _ & _).
    set (q := round_half_even P s) in *.
    rewrite Z.shiftl_div_pow2 by lia.
    set (G := 2 ^ (- (exponent d + s))).
    assert (HG : 0 < G) by (apply Z.pow_pos_nonneg; lia).
    assert (Hs2 : 0 < 2 ^ s) by (apply Z.pow_pos_nonneg; lia).
    assert (Hsp : 2 ^ E = G * 2 ^ s).
    { unfold G. rewrite <- Z.pow_add_r by lia. f_equal. unfold E. lia. }
    pose proof (Z.div_mod P (2 ^ s) ltac:(lia)) as Hdm.
    pose proof (Z.mod_pos_bound P (2 ^ s) Hs2) as Hmb.
    split.
    + intros Ha. apply Z.div_le_lower_bound; [lia|].
      assert (a * G <= P / 2 ^ s).
      { apply Z.div_le_lower_bound; [lia|]. rewrite Hsp in Ha. nia. }
      nia.
    + intros Hb.
      assert (HqG : q <= b * G).
      { destruct (Z.eq_dec (P mod 2 ^ s) 0) as [E0|E0].
        - rewrite (Hq0 E0). apply Z.div_le_upper_bound; [lia|]. rewrite Hsp in Hb. nia.
        - assert (P / 2 ^ s < b * G).
          { apply Z.div_lt_upper_bound; [lia|]. rewrite Hsp in Hb.
            destruct (Z.eq_dec P (b * G * 2 ^ s)) as [Eq|Ne].
            - exfalso. apply E0. rewrite Eq. apply Z.mod_mul. lia.
            - nia. }
          lia. }
      split.
      * apply Z.div_le_upper_bound; [lia|]. nia.
      * intros Hfl. pose proof (Z.div_mod q G ltac:(lia)).
        pose proof (Z.mod_pos_bound q G HG). nia.
Qed.

Lemma exact_floor (d : Double) (n : Z) :
  exponent d < 0 ->
  Qfloor (Double_value d * inject_Z n) = (mantissa d * n) / 2 ^ (- exponent d).
Proof.
  intros He. unfold Double_value.
  destruct (0 <=? exponent d) eqn:E; [apply Z.leb_le in E; lia|].
  unfold Qmult, inject_Z, Qfloor. cbn [Qnum Qden].
  rewrite Pos.mul_1_r, Z2Pos.id by (apply Z.pow_pos_nonneg; lia).
  reflexivity.
Qed.

Lemma zero_draw_index (d : Double) (n : nat) :
  mantissa d = 0 -> random_index d n = 0%nat /\ exact_index d n = 0%nat.
Proof.
  intros Hm. unfold random_index, exact_index, Double_floor, Double_times, Double_value.
  rewrite Hm. cbn [Z.mul].
  cbn [Z.ltb Z.compare Z.pow Z.pow_pos Pos.iter Z.mul Pos.mul mantissa exponent].
  rewrite Z.shiftl_0_l. split; [reflexivity|].
  destruct (0 <=? exponent d); cbn; destruct (Z.of_nat n); reflexivity.
Qed.

(** The index drawn is an index of the array, however long the array. *)
Lemma random_index_in_range (d : Double) (n : nat) :
  is_double d -> (Double_value d < 1)%Q -> (0 < n)%nat ->
  (random_index d n < n)%nat.
Proof.
  intros Hd Hv Hn.
  destruct (below_one d Hd Hv) as [Hz|[He Hm]].
  - destruct (zero_draw_index d n Hz) as [-> _]. exact Hn.
  - pose proof (product_floor_lt d (Z.of_nat n) (Z.of_nat n) Hd He Hm ltac:(lia)) as H.
    unfold random_index.
    assert (0 < 2 ^ (- exponent d)) by (apply Z.pow_pos_nonneg; lia).
    assert (Double_floor (Double_times d (Z.of_nat n)) < Z.of_nat n) by (apply H; nia).
    lia.
Qed.

(** The index drawn is the one an exact product gives, or the next one, and
    the next one only when the product was rounded up to that integer. *)
Lemma random_index_near_exact (d : Double) (n : nat) :
  is_double d -> (Double_value d < 1)%Q -> (0 < n)%nat -> Z.of_nat n <= 2 ^ 53 ->
  (exact_index d n <= random_index d n <= exact_index d n + 1)%nat
  /\ (random_index d n = (exact_index d n + 1)%nat ->
      (Double_value (Double_times d (Z.of_nat n))
       == inject_Z (Z.of_nat (exact_index d n + 1)))%Q)
  /\ (mantissa d * Z.of_nat n < 2 ^ 53 -> random_index d n = exact_index d n).
Proof.
  intros Hd Hv Hn Hn53.
  destruct (below_one d Hd Hv) as [Hz|[He Hm]].
  - destruct (zero_draw_index d n Hz) as [-> ->]. repeat split; try lia; try discriminate.
  - unfold exact_index. rewrite (exact_floor d _ He).
    set (E := - exponent d). set (P := mantissa d * Z.of_nat n).
    assert (HE : 0 < 2 ^ E) by (apply Z.pow_pos_nonneg; unfold E; lia).
    pose proof Hd as [[Hm0 Hm1] Hex].
    assert (HP0 : 0 <= P) by (unfold P; nia).
    pose proof (Z.div_mod P (2 ^ E) ltac:(lia)) as Hdm.
    pose proof (Z.mod_pos_bound P (2 ^ E) HE) as Hmb.
    assert (Hk0 : 0 <= P / 2 ^ E) by (apply Z.div_pos; lia).
    set (k := P / 2 ^ E) in *.
    pose proof (product_floor_grid d (Z.of_nat n) k (k + 1) Hd He Hm ltac:(lia))
      as [Hlo Hhi].
    fold E in Hlo, Hhi. fold P in Hlo, Hhi.
    specialize (Hlo ltac:(nia)). destruct (Hhi ltac:(nia)) as [Hup Heq].
    unfold random_index.
    set (y := Double_floor (Double_times d (Z.of_nat n))) in *.
    split; [lia|]. split.
    + intros Hi. assert (Hy : y = k + 1) by lia. specialize (Heq Hy).
      replace (Z.of_nat (Z.to_nat k + 1)) with (k + 1) by lia.
      unfold Double_value.
      assert (Hexp : exponent (Double_times d (Z.of_nat n)) <= 0).
      { unfold Double_times. fold P.
        destruct (P <? 2 ^ 53) eqn:Ex; [apply Z.ltb_lt in Ex|apply Z.ltb_ge in Ex];
          cbn [exponent]; [lia|].
        apply (product_exponent d (Z.of_nat n) Hd He Hm ltac:(lia) Ex). }
      destruct (0 <=? exponent (Double_times d (Z.of_nat n))) eqn:E0;
        [apply Z.leb_le in E0|apply Z.leb_gt in E0].
      * rewrite Heq. replace (exponent (Double_times d (Z.of_nat n))) with 0 by lia.
        cbn [Z.opp Z.pow]. rewrite !Z.mul_1_r. reflexivity.
      * unfold Qeq, inject_Z. cbn [Qnum Qden].
        rewrite Z2Pos.id by (apply Z.pow_pos_nonneg; lia). rewrite Heq. lia.
    + intros Hex53. unfold y, Double_floor, Double_times. fold P.
      destruct (P <? 2 ^ 53) eqn:Ex; [|apply Z.ltb_ge in Ex; lia].
      cbn [mantissa exponent]. rewrite Z.shiftl_div_pow2 by lia. reflexivity.
Qed.

(** Every index is drawn by some double below 1. *)
Lemma draw_for_reaches (i n : nat) :
  (i < n)%nat -> Z.of_nat n <= 2 ^ 52 ->
  is_double (draw_for i n) /\ (Double_value (draw_for i n) < 1)%Q
  /\ random_index (draw_for i n) n = i.
Proof.
  intros Hi Hn.
  set (m := (Z.of_nat i * 2 ^ 53 + Z.of_nat n - 1) / Z.of_nat n).
  assert (Hnpos : 0 < Z.of_nat n) by lia.
  pose proof (Z.div_mod (Z.of_nat i * 2 ^ 53 + Z.of_nat n - 1) (Z.of_nat n) ltac:(lia)) as Hdm.
  pose proof (Z.mod_pos_bound (Z.of_nat i * 2 ^ 53 + Z.of_nat n - 1) (Z.of_nat n) Hnpos) as Hmb.
  fold m in Hdm.
  assert (H53 : 2 ^ 53 = 2 * 2 ^ 52) by reflexivity.
  assert (H52 : 0 < 2 ^ 52) by reflexivity.
  assert (Hm0 : 0 <= m) by (apply Z.div_pos; lia).
  assert (Hlo : Z.of_nat i * 2 ^ 53 <= m * Z.of_nat n) by lia.
  assert (Hhi : m * Z.of_nat n <= Z.of_nat i * 2 ^ 53 + Z.of_nat n - 1) by lia.
  assert (Hm1 : m < 2 ^ 53) by nia.
  assert (Hd : is_double (draw_for i n)).
  { unfold is_double, draw_for. cbn [mantissa exponent]. fold m. lia. }
  assert (Hv : (Double_value (draw_for i n) < 1)%Q).
  { unfold Double_value, draw_for, Qlt.
    cbn [mantissa exponent Z.leb Z.compare Qnum Qden Z.opp].
    fold m. change (Z.pos (Z.to_pos (2 ^ 53))) with (2 ^ 53). lia. }
  split; [exact Hd|]. split; [exact Hv|].
  assert (He : exponent (draw_for i n) < 0) by (cbn; lia).
  assert (HmE : mantissa (draw_for i n) < 2 ^ (- exponent (draw_for i n))).
  { cbn [draw_for mantissa exponent Z.opp]. fold m. exact Hm1. }
  pose proof (product_floor_lt (draw_for i n) (Z.of_nat n) (Z.of_nat i + 1)
                Hd He HmE ltac:(lia)) as Hlt.
  pose proof (product_floor_grid (draw_for i n) (Z.of_nat n) (Z.of_nat i) 0
                Hd He HmE ltac:(lia)) as [Hge _].
  cbn [draw_for mantissa exponent Z.opp] in Hlt, Hge. fold m in Hlt, Hge.
  change (2 ^ 53) with 9007199254740992 in *.
  specialize (Hlt ltac:(lia)). specialize (Hge ltac:(lia)).
  unfold random_index. lia.
Qed.

End DoubleArithmetic.

(** ** The Provider's signing-information set *)

Section ProviderProperties.

Variable Identity : Type.
Variable isResolved : Identity -> bool.
Variable extractAuthenticationKeys : Identity -> Result (list DidVerificationKey).
Variable isMultibasePvtKey : string -> bool.
Variable getBase58fromMultibase : string -> Result string.
Variable KTYS_at : KTYS -> option string.
Variable ALGORITHMS_at : ALGORITHMS -> option string.
Variable KEY_FORMATS_entries : list FormatEntry.
Variable Key : Type.
Variable RSAKey_fromKey : KeyInfo -> Result Key.
Variable ECKey_fromKey : KeyInfo -> Result Key.
Variable OKP_fromKey : KeyInfo -> Result Key.
Variable checkKeyPair : Key -> Key + PublicKeyValue -> Suite -> ALGORITHMS -> Result bool.
Variable RequestPayload : Type.
Variable VPData : Type.
Variable SIOPTokensEcoded : Type.
Variable DidSiopResponse_generateResponse :
  RequestPayload -> option SigningInfo -> Identity -> Z -> Result string.
Variable DidSiopResponse_generateResponseWithVPData :
  RequestPayload -> option SigningInfo -> Identity -> Z -> VPData -> Result SIOPTokensEcoded.

Local Abbreviation trial :=
  (try_combination KTYS_at ALGORITHMS_at RSAKey_fromKey ECKey_fromKey OKP_fromKey
     checkKeyPair).
Local Abbreviation for_formats :=
  (for_in_KEY_FORMATS KTYS_at ALGORITHMS_at RSAKey_fromKey ECKey_fromKey OKP_fromKey
     checkKeyPair).
Local Abbreviation for_keys :=
  (for_of_didPublicKeySet KTYS_at ALGORITHMS_at KEY_FORMATS_entries RSAKey_fromKey
     ECKey_fromKey OKP_fromKey checkKeyPair).
Local Abbreviation addSigning :=
  (addSigningParams extractAuthenticationKeys isMultibasePvtKey getBase58fromMultibase
     KTYS_at ALGORITHMS_at KEY_FORMATS_entries RSAKey_fromKey ECKey_fromKey OKP_fromKey
     checkKeyPair).
Local Abbreviation matches :=
  (matches_key KTYS_at ALGORITHMS_at KEY_FORMATS_entries RSAKey_fromKey ECKey_fromKey
     OKP_fromKey checkKeyPair).
Local Abbreviation pairs :=
  (key_pair_checks KTYS_at ALGORITHMS_at RSAKey_fromKey ECKey_fromKey OKP_fromKey
     checkKeyPair).
Local Abbreviation norm := (normalized isMultibasePvtKey getBase58fromMultibase).
Local Abbreviation respond :=
  (generateResponse isResolved DidSiopResponse_generateResponse).
Local Abbreviation respondVP :=
  (generateResponseWithVPData isResolved DidSiopResponse_generateResponseWithVPData).

(** *** The two loops *)

Lemma for_formats_none (this : Provider Identity) (k : DidVerificationKey)
    (key : string) (entries : list FormatEntry) :
  for_formats this k key entries = None <->
  (forall f, In f entries -> trial k key f <> Ok true).
Proof.
  induction entries as [|f fs IH]; cbn [for_in_KEY_FORMATS].
  - split; [intros _ f []|reflexivity].
  - destruct (trial k key f) as [[|]|e] eqn:Hf.
    + split; [discriminate|]. intros H. exfalso. apply (H f); [now left|assumption].
    + rewrite IH. split.
      * intros H f' [<-|Hin]; [congruence|auto].
      * intros H f' Hin. apply H. now right.
    + rewrite IH. split.
      * intros H f' [<-|Hin]; [congruence|auto].
      * intros H f' Hin. apply H. now right.
Qed.

Lemma for_formats_some (this : Provider Identity) (k : DidVerificationKey)
    (key : string) (entries : list FormatEntry) (r : string * Provider Identity) :
  for_formats this k key entries = Some r ->
  exists skipped f rest,
    entries = skipped ++ f :: rest
    /\ (forall f', In f' skipped -> trial k key f' <> Ok true)
    /\ trial k key f = Ok true
    /\ r = (k_id k, push_signing_info this (recorded k key f)).
Proof.
  induction entries as [|f fs IH]; cbn [for_in_KEY_FORMATS]; [discriminate|].
  destruct (trial k key f) as [[|]|e] eqn:Hf.
  - intros [= <-]. exists [], f, fs. repeat split; auto.
  - intros H. destruct (IH H) as (sk & f0 & rest & -> & Hsk & Hf0 & ->).
    exists (f :: sk), f0, rest. repeat split; auto.
    intros f' [<-|Hin]; [congruence|auto].
  - intros H. destruct (IH H) as (sk & f0 & rest & -> & Hsk & Hf0 & ->).
    exists (f :: sk), f0, rest. repeat split; auto.
    intros f' [<-|Hin]; [congruence|auto].
Qed.

Lemma matches_false (key : string) (k : DidVerificationKey) :
  matches key k = false <->
  (forall f, In f KEY_FORMATS_entries -> trial k key f <> Ok true).
Proof.
  unfold matches_key. split.
  - intros H f Hin Hf.
    assert (E : existsb (fun key_format =>
                  match trial k key key_format with Ok true => true | _ => false end)
                 KEY_FORMATS_entries = true).
    { apply existsb_exists. exists f. split; [assumption|]. now rewrite Hf. }
    congruence.
  - intros H. apply not_true_is_false. intros E.
    apply existsb_exists in E as (f & Hin & Hf).
    apply (H f Hin). destruct (trial k key f) as [[|]|]; congruence.
Qed.

Lemma matches_true (key : string) (k : DidVerificationKey) :
  matches key k = true <->
  (exists f, In f KEY_FORMATS_entries /\ trial k key f = Ok true).
Proof.
  unfold matches_key. rewrite existsb_exists. split.
  - intros (f & Hin & Hf). exists f. split; [assumption|].
    destruct (trial k key f) as [[|]|]; congruence.
  - intros (f & Hin & Hf). exists f. split; [assumption|]. now rewrite Hf.
Qed.

Lemma for_keys_none (this : Provider Identity) (keys : list DidVerificationKey)
    (key : string) :
  for_keys this keys key = None <-> (forall k, In k keys -> matches key k = false).
Proof.
  induction keys as [|k ks IH]; cbn [for_of_didPublicKeySet].
  - split; [intros _ k []|reflexivity].
  - destruct (for_formats this k key KEY_FORMATS_entries) as [r|] eqn:Hk.
    + split; [discriminate|]. intros H. exfalso.
      assert (Hm : matches key k = false) by (apply H; now left).
      pose proof (proj1 (matches_false key k) Hm) as Hm'.
      pose proof (proj2 (for_formats_none this k key KEY_FORMATS_entries) Hm').
      congruence.
    + pose proof (proj1 (for_formats_none this k key KEY_FORMATS_entries) Hk) as Hk'.
      pose proof (proj2 (matches_false key k) Hk') as Hm.
      rewrite IH. split.
      * intros H k' [<-|Hin]; auto.
      * intros H k' Hin. apply H. now right.
Qed.

Lemma for_keys_some (this : Provider Identity) (keys : list DidVerificationKey)
    (key : string) (r : string * Provider Identity) :
  for_keys this keys key = Some r ->
  exists before k after skipped f rest,
    keys = before ++ k :: after
    /\ (forall k', In k' before -> matches key k' = false)
    /\ KEY_FORMATS_entries = skipped ++ f :: rest
    /\ (forall f', In f' skipped -> trial k key f' <> Ok true)
    /\ trial k key f = Ok true
    /\ r = (k_id k, push_signing_info this (recorded k key f)).
Proof.
  induction keys as [|k ks IH]; cbn [for_of_didPublicKeySet]; [discriminate|].
  destruct (for_formats this k key KEY_FORMATS_entries) as [r'|] eqn:Hk.
  - intros [= <-]. destruct (for_formats_some _ _ _ _ _ Hk) as (sk & f & rest & E & Hsk & Hf & ->).
    exists [], k, ks, sk, f, rest. repeat split; auto. intros k' [].
  - intros H.
    destruct (IH H) as (before & k0 & after & sk & f & rest & -> & Hb & E & Hsk & Hf & ->).
    exists (k :: before), k0, after, sk, f, rest. repeat split; auto.
    intros k' [Heq|Hin]; [subst k'|auto].
    apply (proj2 (matches_false key k)).
    now apply (proj1 (for_formats_none this k key KEY_FORMATS_entries)).
Qed.

Lemma for_formats_found (this : Provider Identity) (k : DidVerificationKey)
    (key : string) (skipped : list FormatEntry) (f : FormatEntry)
    (rest : list FormatEntry) :
  (forall f', In f' skipped -> trial k key f' <> Ok true) ->
  trial k key f = Ok true ->
  for_formats this k key (skipped ++ f :: rest)
  = Some (k_id k, push_signing_info this (recorded k key f)).
Proof.
  intros Hsk Hf. induction skipped as [|f0 sk IH]; cbn [app for_in_KEY_FORMATS].
  - now rewrite Hf.
  - assert (H0 : trial k key f0 <> Ok true) by (apply Hsk; now left).
    destruct (trial k key f0) as [[|]|e]; [congruence| |];
      apply IH; intros f' Hin; apply Hsk; now right.
Qed.

Lemma for_keys_found (this : Provider Identity) (before : list DidVerificationKey)
    (k : DidVerificationKey) (after : list DidVerificationKey) (key : string)
    (skipped : list FormatEntry) (f : FormatEntry) (rest : list FormatEntry) :
  (forall k', In k' before -> matches key k' = false) ->
  KEY_FORMATS_entries = skipped ++ f :: rest ->
  (forall f', In f' skipped -> trial k key f' <> Ok true) ->
  trial k key f = Ok true ->
  for_keys this (before ++ k :: after) key
  = Some (k_id k, push_signing_info this (recorded k key f)).
Proof.
  intros Hb E Hsk Hf. induction before as [|k0 bs IH]; cbn [app for_of_didPublicKeySet].
  - rewrite E. now rewrite (for_formats_found this k key skipped f rest Hsk Hf).
  - assert (H0 : matches key k0 = false) by (apply Hb; now left).
    pose proof (proj1 (matches_false key k0) H0) as H0'.
    rewrite (proj2 (for_formats_none this k0 key KEY_FORMATS_entries) H0').
    apply IH. intros k' Hin. apply Hb. now right.
Qed.

(** A pair in the words of the collaborators is a trial that succeeds. *)
Lemma key_pair_checks_trial (k : DidVerificationKey) (key : string) (f : FormatEntry) :
  pairs k key f <-> trial k key f = Ok true.
Proof.
  unfold key_pair_checks, try_combination.
  destruct (kty k).
  - split.
    + intros (priv & pub & -> & H2 & H3). cbn [bind]. now rewrite H2.
    + destruct (RSAKey_fromKey (privateKeyInfo_of _ _ k key f)) as [priv|];
        cbn [bind]; [|discriminate].
      destruct (RSAKey_fromKey (publicKeyInfo_of _ _ k)) as [pub|];
        cbn [bind]; [|discriminate].
      intros H. now exists priv, pub.
  - destruct (KEY_FORMATS_eqb (format k) ETHEREUM_ADDRESS).
    + split.
      * intros (priv & -> & H2). exact H2.
      * destruct (ECKey_fromKey (privateKeyInfo_of _ _ k key f)) as [priv|];
          cbn [bind]; [|discriminate].
        intros H. now exists priv.
    + split.
      * intros (priv & pub & -> & H2 & H3). cbn [bind]. now rewrite H2.
      * destruct (ECKey_fromKey (privateKeyInfo_of _ _ k key f)) as [priv|];
          cbn [bind]; [|discriminate].
        destruct (ECKey_fromKey (publicKeyInfo_of _ _ k)) as [pub|];
          cbn [bind]; [|discriminate].
        intros H. now exists priv, pub.
  - split.
    + intros (priv & pub & -> & H2 & H3). cbn [bind]. now rewrite H2.
    + destruct (OKP_fromKey (privateKeyInfo_of _ _ k key f)) as [priv|];
        cbn [bind]; [|discriminate].
      destruct (OKP_fromKey (publicKeyInfo_of _ _ k)) as [pub|];
        cbn [bind]; [|discriminate].
      intros H. now exists priv, pub.
  - split; [intros []|discriminate].
Qed.

Lemma no_pair_no_trial (k : DidVerificationKey) (key : string) (f : FormatEntry) :
  ~ pairs k key f <-> trial k key f <> Ok true.
Proof.
  now rewrite key_pair_checks_trial.
Qed.

(** C2.  With a resolved identity whose authentication keys are [keys], and
    a private key normalized to [nk]: let a private key and a document key
    be a pair under a format when the key constructors of the document key's
    family build both and [checkKeyPair] answers [true] for them.  If [k] is
    the first document key, in document order, that is a pair with the
    private key under some enumerated format, and [f] the first enumerated
    format under which it is, then [addSigningParams] returns the kid of
    [k], leaves the identity alone, and the signing-information set
    afterwards is the set before followed by one entry: the algorithm and
    kid of [k] as extracted from the document, the normalized private key,
    and the format [f], the only component that comes from the loop.  And
    whenever the private key is a pair with some document key under some
    enumerated format, such a first key and first format exist. *)
Theorem addSigningParams_records_first_match
    (this : Provider Identity) (key nk : string) (keys : list DidVerificationKey) :
  extractAuthenticationKeys (identity this) = Ok keys ->
  norm key = Ok nk ->
  (forall before k after skipped f rest,
      keys = before ++ k :: after ->
      (forall k' f', In k' before -> In f' KEY_FORMATS_entries -> ~ pairs k' nk f') ->
      KEY_FORMATS_entries = skipped ++ f :: rest ->
      (forall f', In f' skipped -> ~ pairs k nk f') ->
      pairs k nk f ->
      fst (addSigning this key) = Ok (k_id k)
      /\ signing_info_set (snd (addSigning this key))
         = signing_info_set this
           ++ [{| si_alg := alg k; si_kid := k_id k; si_key := nk; si_format := f |}]
      /\ identity (snd (addSigning this key)) = identity this)
  /\ ((exists k0 f0, In k0 keys /\ In f0 KEY_FORMATS_entries /\ pairs k0 nk f0) ->
      exists before k after skipped f rest,
        keys = before ++ k :: after
        /\ (forall k' f', In k' before -> In f' KEY_FORMATS_entries -> ~ pairs k' nk f')
        /\ KEY_FORMATS_entries = skipped ++ f :: rest
        /\ (forall f', In f' skipped -> ~ pairs k nk f')
        /\ pairs k nk f).
Proof.
  intros Hkeys Hnk. split.
  - intros before k after skipped f rest -> Hb E Hsk Hf.
    unfold addSigningParams. rewrite Hkeys, Hnk.
    rewrite (for_keys_found this before k after nk skipped f rest).
    + repeat split.
    + intros k' Hin. apply (proj2 (matches_false nk k')). intros f' Hf'.
      apply no_pair_no_trial. now apply Hb.
    + exact E.
    + intros f' Hin. apply no_pair_no_trial. now apply Hsk.
    + now apply key_pair_checks_trial.
  - intros (k0 & f0 & Hin0 & Hf0 & Hp0).
    destruct (for_keys this keys nk) as [r|] eqn:Hloop.
    + destruct (for_keys_some _ _ _ _ Hloop)
        as (before & k & after & sk & f & rest & E & Hb & Ef & Hsk & Hf & _).
      exists before, k, after, sk, f, rest. split; [exact E|]. split.
      { intros k' f' Hk' Hf'. apply no_pair_no_trial.
        exact (proj1 (matches_false nk k') (Hb k' Hk') f' Hf'). }
      split; [exact Ef|]. split.
      { intros f' Hf'. apply no_pair_no_trial. now apply Hsk. }
      now apply key_pair_checks_trial.
    + pose proof (proj1 (for_keys_none this keys nk) Hloop k0 Hin0) as Hm.
      apply key_pair_checks_trial in Hp0.
      now pose proof (proj1 (matches_false nk k0) Hm f0 Hf0).
Qed.

(** C5.  With a resolved identity whose authentication keys are [keys], a
    private key (normalized to [nk]) that pairs with none of them makes
    [addSigningParams] fail with the provider's "No public key matches given
    private key" error and leave the provider as it was; and that failure is
    reached only when every authentication key has been tried with every
    enumerated format without a pair that checks. *)
Theorem addSigningParams_no_match
    (this : Provider Identity) (key nk : string) (keys : list DidVerificationKey) :
  extractAuthenticationKeys (identity this) = Ok keys ->
  norm key = Ok nk ->
  ((forall k, In k keys -> matches nk k = false) ->
     addSigning this key = (Throw NO_PUBLIC_KEY, this))
  /\ (fst (addSigning this key) = Throw NO_PUBLIC_KEY ->
        forall k f, In k keys -> In f KEY_FORMATS_entries -> trial k nk f <> Ok true).
Proof.
  intros Hkeys Hnk. unfold addSigningParams. rewrite Hkeys, Hnk. split.
  - intros Hnone. now rewrite (proj2 (for_keys_none this keys nk) Hnone).
  - destruct (for_keys this keys nk) as [[kid this']|] eqn:Hloop;
      cbn [fst]; [discriminate|].
    intros _ k f Hk Hf.
    pose proof (proj1 (for_keys_none this keys nk) Hloop k Hk) as Hm.
    exact (proj1 (matches_false nk k) Hm f Hf).
Qed.

(** C9.  A call of [addSigningParams] that returns a kid leaves the identity
    alone and appends exactly one entry, of that kid, after the entries that
    were there; a call that fails returns the provider unchanged. *)
Theorem addSigningParams_atomic (this : Provider Identity) (key : string) :
  match addSigning this key with
  | (Ok kid, this') =>
      identity this' = identity this
      /\ exists s, signing_info_set this' = signing_info_set this ++ [s]
                   /\ si_kid s = kid
  | (Throw _, this') => this' = this
  end.
Proof.
  unfold addSigningParams.
  destruct (extractAuthenticationKeys (identity this)) as [keys|e]; [|reflexivity].
  destruct (norm key) as [nk|e]; [|reflexivity].
  destruct (for_keys this keys nk) as [[kid this']|] eqn:Hloop; [|reflexivity].
  destruct (for_keys_some _ _ _ _ Hloop)
    as (before & k & after & sk & f & rest & _ & _ & _ & _ & _ & [= -> ->]).
  split; [reflexivity|]. now exists (recorded k nk f).
Qed.

Lemma for_formats_other_kty (this : Provider Identity) (k : DidVerificationKey)
    (name key : string) (entries : list FormatEntry) :
  kty k = KtyOther name -> for_formats this k key entries = None.
Proof.
  intros Hk. induction entries as [|f fs IH]; cbn [for_in_KEY_FORMATS]; [reflexivity|].
  unfold try_combination. now rewrite Hk.
Qed.

(** C10.  With a resolved identity and a private key that normalizes,
    [addSigningParams] either returns a kid or fails with the provider's
    NO_PUBLIC_KEY error, whatever the key constructors and [checkKeyPair]
    throw; a document key whose key type is not RSA, EC or OKP is passed over;
    and a combination whose trial throws is passed over alone, the loop going
    on with the next format. *)
Theorem trial_failures_are_contained :
  (forall (this : Provider Identity) (key nk : string) (keys : list DidVerificationKey),
      extractAuthenticationKeys (identity this) = Ok keys ->
      norm key = Ok nk ->
      (exists kid, fst (addSigning this key) = Ok kid)
      \/ fst (addSigning this key) = Throw NO_PUBLIC_KEY)
  /\ (forall (this : Provider Identity) (k : DidVerificationKey) (name key : string)
             (rest : list DidVerificationKey),
        kty k = KtyOther name ->
        for_keys this (k :: rest) key = for_keys this rest key)
  /\ (forall (this : Provider Identity) (k : DidVerificationKey) (key : string)
             (f : FormatEntry) (e : Error) (rest : list FormatEntry),
        trial k key f = Throw e ->
        for_formats this k key (f :: rest) = for_formats this k key rest).
Proof.
  split; [|split].
  - intros this key nk keys Hkeys Hnk. unfold addSigningParams. rewrite Hkeys, Hnk.
    destruct (for_keys this keys nk) as [[kid this']|]; cbn [fst].
    + left. now exists kid.
    + now right.
  - intros this k name key rest Hk. cbn [for_of_didPublicKeySet].
    now rewrite (for_formats_other_kty this k name key KEY_FORMATS_entries Hk).
  - intros this k key f e rest Hf. cbn [for_in_KEY_FORMATS]. now rewrite Hf.
Qed.

(** *** Removal *)

Lemma filter_filter_implied {A : Type} (P Q : A -> bool) (l : list A) :
  (forall x, P x = true -> Q x = true) ->
  filter P (filter Q l) = filter P l.
Proof.
  intros H. induction l as [|x l IH]; cbn [filter]; [reflexivity|].
  destruct (Q x) eqn:HQ; cbn [filter].
  - now rewrite IH.
  - destruct (P x) eqn:HP; [|assumption]. rewrite (H x HP) in HQ. discriminate.
Qed.

Lemma filter_all_kept {A : Type} (Q : A -> bool) (l : list A) :
  (forall x, In x l -> Q x = true) -> filter Q l = l.
Proof.
  induction l as [|x l IH]; cbn [filter]; [reflexivity|].
  intros H. rewrite (H x (or_introl eq_refl)). f_equal. apply IH.
  intros y Hy. apply H. now right.
Qed.

Lemma filter_none_kept {A : Type} (Q : A -> bool) (l : list A) :
  (forall x, In x l -> Q x = false) -> filter Q l = [].
Proof.
  induction l as [|x l IH]; cbn [filter]; [reflexivity|].
  intros H. rewrite (H x (or_introl eq_refl)). apply IH.
  intros y Hy. apply H. now right.
Qed.

(** C8.  [removeSigningParams kid] keeps the identity; the entries left are
    exactly the former entries whose kid differs from [kid]; those entries
    stay as they were, in the same order and number (any selection of entries
    of other kids reads the same before and after); and when no entry has that
    kid the provider is unchanged. *)
Theorem removeSigningParams_frame (this : Provider Identity) (kid : string) :
  identity (removeSigningParams this kid) = identity this
  /\ (forall s, In s (signing_info_set (removeSigningParams this kid)) <->
                In s (signing_info_set this) /\ si_kid s <> kid)
  /\ (forall P : SigningInfo -> bool,
        (forall s, P s = true -> si_kid s <> kid) ->
        filter P (signing_info_set (removeSigningParams this kid)) =
        filter P (signing_info_set this))
  /\ ((forall s, In s (signing_info_set this) -> si_kid s <> kid) ->
        removeSigningParams this kid = this).
Proof.
  unfold removeSigningParams. cbn [identity signing_info_set].
  split; [reflexivity|]. split; [|split].
  - intros s. rewrite filter_In. split; intros [Hin Hk]; split; auto.
    + intros E. rewrite E, String.eqb_refl in Hk. discriminate.
    + destruct (String.eqb_spec (si_kid s) kid); [contradiction|reflexivity].
  - intros P HP. apply filter_filter_implied. intros s Hs.
    destruct (String.eqb_spec (si_kid s) kid); [|reflexivity].
    now apply HP in Hs.
  - intros Habsent. destruct this as [ident set]. cbn [identity signing_info_set] in *.
    f_equal. apply filter_all_kept. intros s Hs.
    destruct (String.eqb_spec (si_kid s) kid); [|reflexivity].
    now apply Habsent in Hs.
Qed.

(** *** Response generation *)

Lemma Qfloor_unique (z : Z) (x : Q) :
  (inject_Z z <= x)%Q -> (x < inject_Z (z + 1))%Q -> Qfloor x = z.
Proof.
  intros Hlo Hhi. apply Z.le_antisymm.
  - apply Z.lt_succ_r. rewrite Zlt_Qlt.
    apply Qle_lt_trans with x; [apply Qfloor_le|exact Hhi].
  - rewrite <- (Qfloor_Z z). now apply Qfloor_resp_le.
Qed.

Lemma scaled_bounds (r : Q) (n : nat) (i : Z) :
  (0 < n)%nat ->
  ((inject_Z i <= r * inject_Z (Z.of_nat n))%Q <-> (inject_Z i / inject_Z (Z.of_nat n) <= r)%Q)
  /\ ((r * inject_Z (Z.of_nat n) < inject_Z i)%Q <-> (r < inject_Z i / inject_Z (Z.of_nat n))%Q).
Proof.
  intros Hn.
  assert (Hpos : (0 < inject_Z (Z.of_nat n))%Q).
  { change 0%Q with (inject_Z 0). rewrite <- Zlt_Qlt. lia. }
  split; split; intros H.
  - now apply Qle_shift_div_r.
  - apply (Qmult_le_r _ _ _ Hpos) in H.
    unfold Qdiv in H. rewrite <- Qmult_assoc, (Qmult_comm (/ _)), Qmult_inv_r, Qmult_1_r in H; auto.
    intros E. rewrite E in Hpos. now apply Qlt_irrefl in Hpos.
  - now apply Qlt_shift_div_l.
  - apply (Qmult_lt_r _ _ _ Hpos) in H.
    unfold Qdiv in H. rewrite <- Qmult_assoc, (Qmult_comm (/ _)), Qmult_inv_r, Qmult_1_r in H; auto.
    intros E. rewrite E in Hpos. now apply Qlt_irrefl in Hpos.
Qed.

Lemma exact_index_interval (d : Double) (n i : nat) :
  is_double d -> (0 < n)%nat ->
  (exact_index d n = i <->
   (inject_Z (Z.of_nat i) / inject_Z (Z.of_nat n) <= Double_value d)%Q
   /\ (Double_value d < inject_Z (Z.of_nat i + 1) / inject_Z (Z.of_nat n))%Q).
Proof.
  intros Hd Hn. pose proof (Double_value_nonneg d Hd) as Hr. unfold exact_index.
  set (r := Double_value d) in *.
  set (x := (r * inject_Z (Z.of_nat n))%Q).
  assert (Hx : (0 <= x)%Q).
  { unfold x. apply Qmult_le_0_compat; [assumption|].
    change 0%Q with (inject_Z 0). rewrite <- Zle_Qle. lia. }
  assert (Hfl : (0 <= Qfloor x)%Z).
  { rewrite <- (Qfloor_Z 0). now apply Qfloor_resp_le. }
  destruct (scaled_bounds r n (Z.of_nat i) Hn) as [Hlo _].
  destruct (scaled_bounds r n (Z.of_nat i + 1) Hn) as [_ Hhi].
  fold x in Hlo, Hhi. rewrite <- Hlo, <- Hhi. split.
  - intros E. assert (E' : Qfloor x = Z.of_nat i) by lia. rewrite <- E'.
    split; [apply Qfloor_le|apply Qlt_floor].
  - intros [H1 H2]. rewrite (Qfloor_unique (Z.of_nat i) x H1 H2). lia.
Qed.

Lemma empty_set_length (A : Type) (l : list A) :
  (0 <? length l)%nat = false <-> l = [].
Proof.
  destruct l; cbn; split; congruence.
Qed.

(** C7.  [generateResponse] and [generateResponseWithVPData] fail with
    NO_SIGNING_INFO when the signing-information set is empty, resolved or
    not; with a non-empty set and an unresolved identity they fail with
    UNRESOLVED_IDENTITY; otherwise they hand one entry of the set to the
    response builder, the entry at index Math.floor(random * length), the
    product being the product of doubles: for every double [random] of
    [0, 1) that index is in range.  The choice is the even one up to the
    rounding of the product: the index an exact product gives is [i] exactly
    for the draws of [i / length, (i + 1) / length), an interval of the same
    width for every entry; in a set of at most 2^53 entries the index
    chosen is that one, or the next when the product is rounded up to that
    next integer, and it is that one whenever the product needs no
    rounding.  After [removeSigningParams kid]
    on a set all of whose entries have that kid, both fail with
    NO_SIGNING_INFO. *)
Theorem generateResponse_requirements
    (this : Provider Identity) (requestPayload : RequestPayload)
    (expiresIn : option Z) (vps : VPData) (random : Double) :
  (signing_info_set this = [] ->
     respond this requestPayload expiresIn random = Throw NO_SIGNING_INFO
     /\ respondVP this requestPayload expiresIn vps random = Throw NO_SIGNING_INFO)
  /\ (signing_info_set this <> [] -> isResolved (identity this) = false ->
        respond this requestPayload expiresIn random = Throw UNRESOLVED_IDENTITY
        /\ respondVP this requestPayload expiresIn vps random = Throw UNRESOLVED_IDENTITY)
  /\ (signing_info_set this <> [] -> isResolved (identity this) = true ->
        is_double random -> (Double_value random < 1)%Q ->
        exists s,
          nth_error (signing_info_set this)
            (random_index random (length (signing_info_set this))) = Some s
          /\ In s (signing_info_set this)
          /\ respond this requestPayload expiresIn random =
               DidSiopResponse_generateResponse requestPayload (Some s) (identity this)
                 (default_expiresIn expiresIn)
          /\ respondVP this requestPayload expiresIn vps random =
               DidSiopResponse_generateResponseWithVPData requestPayload (Some s)
                 (identity this) (default_expiresIn expiresIn) vps)
  /\ (signing_info_set this <> [] ->
        is_double random -> (Double_value random < 1)%Q ->
        (Z.of_nat (length (signing_info_set this)) <= 2 ^ 53)%Z ->
        (forall i : nat,
           exact_index random (length (signing_info_set this)) = i <->
           (inject_Z (Z.of_nat i) / inject_Z (Z.of_nat (length (signing_info_set this)))
              <= Double_value random)%Q
           /\ (Double_value random <
                 inject_Z (Z.of_nat i + 1)
                 / inject_Z (Z.of_nat (length (signing_info_set this))))%Q)
        /\ (exact_index random (length (signing_info_set this))
              <= random_index random (length (signing_info_set this))
              <= exact_index random (length (signing_info_set this)) + 1)%nat
        /\ (random_index random (length (signing_info_set this))
              = (exact_index random (length (signing_info_set this)) + 1)%nat ->
            (Double_value
               (Double_times random (Z.of_nat (length (signing_info_set this))))
             == inject_Z
                  (Z.of_nat (exact_index random (length (signing_info_set this)) + 1)))%Q)
        /\ ((mantissa random * Z.of_nat (length (signing_info_set this)) < 2 ^ 53)%Z ->
            random_index random (length (signing_info_set this))
            = exact_index random (length (signing_info_set this))))
  /\ (forall kid : string,
        (forall s, In s (signing_info_set this) -> si_kid s = kid) ->
        respond (removeSigningParams this kid) requestPayload expiresIn random =
          Throw NO_SIGNING_INFO
        /\ respondVP (removeSigningParams this kid) requestPayload expiresIn vps random =
             Throw NO_SIGNING_INFO).
Proof.
  assert (Hlen : signing_info_set this <> [] ->
                 (0 < length (signing_info_set this))%nat).
  { destruct (signing_info_set this); [congruence|cbn; lia]. }
  unfold generateResponse, generateResponseWithVPData.
  split; [|split; [|split; [|split]]].
  - intros ->. cbn. now split.
  - intros Hne Hres. apply Hlen in Hne. apply Nat.ltb_lt in Hne.
    rewrite Hne, Hres. now split.
  - intros Hne Hres H0 H1. pose proof (Hlen Hne) as Hpos.
    pose proof (random_index_in_range random _ H0 H1 Hpos) as Hidx.
    destruct (nth_error (signing_info_set this)
                (random_index random (length (signing_info_set this)))) as [s|] eqn:Hnth.
    + exists s. apply Nat.ltb_lt in Hpos. rewrite Hpos, Hres.
      repeat split; auto. now apply nth_error_In in Hnth.
    + apply nth_error_None in Hnth. lia.
  - intros Hne H0 H1 Hmax. pose proof (Hlen Hne) as Hpos.
    split.
    + intros i. apply exact_index_interval; auto.
    + apply random_index_near_exact; auto.
  - intros kid Hall. cbn [signing_info_set removeSigningParams].
    assert (E : filter (fun s => negb (String.eqb (si_kid s) kid)) (signing_info_set this)
                = []).
    { apply filter_none_kept. intros s Hs.
      now rewrite (Hall s Hs), String.eqb_refl. }
    rewrite E. cbn. now split.
Qed.

(** *** How the operations compose *)

Lemma addSigning_success_inv (this this' : Provider Identity) (key kid : string) :
  addSigning this key = (Ok kid, this') ->
  exists keys nk before k after skipped f rest,
    extractAuthenticationKeys (identity this) = Ok keys
    /\ norm key = Ok nk
    /\ keys = before ++ k :: after
    /\ (forall k', In k' before -> matches nk k' = false)
    /\ KEY_FORMATS_entries = skipped ++ f :: rest
    /\ (forall f', In f' skipped -> trial k nk f' <> Ok true)
    /\ trial k nk f = Ok true
    /\ kid = k_id k
    /\ this' = push_signing_info this (recorded k nk f).
Proof.
  unfold addSigningParams.
  destruct (extractAuthenticationKeys (identity this)) as [keys|e]; [|discriminate].
  destruct (norm key) as [nk|e]; [|discriminate].
  destruct (for_keys this keys nk) as [[kid0 this0]|] eqn:Hloop; [|discriminate].
  intros [= -> ->].
  destruct (for_keys_some _ _ _ _ Hloop)
    as (before & k & after & sk & f & rest & E & Hb & Ef & Hsk & Hf & [= -> ->]).
  exists keys, nk, before, k, after, sk, f, rest. repeat split; auto.
Qed.

Lemma removed_after_push (this : Provider Identity) (s : SigningInfo) :
  signing_info_set (removeSigningParams (push_signing_info this s) (si_kid s))
  = signing_info_set (removeSigningParams this (si_kid s)).
Proof.
  cbn [removeSigningParams push_signing_info signing_info_set].
  rewrite filter_app. cbn [filter]. rewrite String.eqb_refl. cbn [negb].
  apply app_nil_r.
Qed.

(** A kid returned by [addSigningParams] always stands for a confirmed pair:
    it is the id of one of the identity's authentication keys, of family RSA,
    EC or OKP, whose trial with the normalized private key succeeded under
    one of the enumerated formats, and the entry appended records exactly
    that key's algorithm and kid, the normalized private key and that
    format. *)
Theorem addSigningParams_success_is_checked
    (this this' : Provider Identity) (key kid : string) :
  addSigning this key = (Ok kid, this') ->
  exists keys nk k f,
    extractAuthenticationKeys (identity this) = Ok keys
    /\ norm key = Ok nk
    /\ In k keys /\ In f KEY_FORMATS_entries
    /\ trial k nk f = Ok true
    /\ k_id k = kid
    /\ (kty k = RSA \/ kty k = EC \/ kty k = OKP)
    /\ signing_info_set this' =
         signing_info_set this
         ++ [{| si_alg := alg k; si_kid := kid; si_key := nk; si_format := f |}].
Proof.
  intros H.
  destruct (addSigning_success_inv _ _ _ _ H)
    as (keys & nk & before & k & after & sk & f & rest
        & Hk & Hn & -> & _ & Ef & _ & Hf & -> & ->).
  exists (before ++ k :: after), nk, k, f. repeat split; auto.
  - apply in_or_app. right. now left.
  - rewrite Ef. apply in_or_app. right. now left.
  - revert Hf. unfold try_combination.
    destruct (kty k); auto. discriminate.
Qed.

(** Adding a key and then removing the kid returned undoes the addition:
    the set is what removing that kid from the original set gives, and the
    provider is back to what it was when no earlier entry had that kid. *)
Theorem add_then_remove (this this' : Provider Identity) (key kid : string) :
  addSigning this key = (Ok kid, this') ->
  signing_info_set (removeSigningParams this' kid)
    = signing_info_set (removeSigningParams this kid)
  /\ ((forall s, In s (signing_info_set this) -> si_kid s <> kid) ->
        removeSigningParams this' kid = this).
Proof.
  intros H.
  destruct (addSigning_success_inv _ _ _ _ H)
    as (keys & nk & before & k & after & sk & f & rest
        & _ & _ & _ & _ & _ & _ & _ & -> & ->).
  pose proof (removed_after_push this (recorded k nk f)) as Hrm.
  cbn [recorded si_kid] in Hrm. split; [exact Hrm|].
  intros Habsent. destruct this as [ident set].
  unfold removeSigningParams in *. cbn [identity signing_info_set push_signing_info] in *.
  f_equal. rewrite Hrm. apply filter_all_kept. intros s Hs.
  destruct (String.eqb_spec (si_kid s) (k_id k)); [|reflexivity].
  now apply Habsent in Hs.
Qed.

(** [addSigningParams] does not look at the entries already held: the same
    private key added again succeeds with the same kid and appends a second,
    identical entry; one [removeSigningParams] of that kid removes both. *)
Theorem add_twice_duplicates (this this' : Provider Identity) (key kid : string) :
  addSigning this key = (Ok kid, this') ->
  exists s,
    si_kid s = kid
    /\ this' = push_signing_info this s
    /\ addSigning this' key = (Ok kid, push_signing_info this' s)
    /\ signing_info_set (push_signing_info this' s) = signing_info_set this ++ [s; s]
    /\ signing_info_set (removeSigningParams (push_signing_info this' s) kid)
        = signing_info_set (removeSigningParams this kid).
Proof.
  intros H.
  destruct (addSigning_success_inv _ _ _ _ H)
    as (keys & nk & before & k & after & sk & f & rest
        & Hk & Hn & -> & Hb & Ef & Hsk & Hf & -> & ->).
  exists (recorded k nk f). repeat split.
  - unfold addSigningParams. cbn [identity push_signing_info]. rewrite Hk, Hn.
    now rewrite (for_keys_found _ before k after nk sk f rest Hb Ef Hsk Hf).
  - cbn [push_signing_info signing_info_set]. now rewrite <- app_assoc.
  - pose proof (removed_after_push (push_signing_info this (recorded k nk f))
                  (recorded k nk f)) as H1.
    pose proof (removed_after_push this (recorded k nk f)) as H2.
    cbn [recorded si_kid] in H1, H2. now rewrite H1, H2.
Qed.

(** Removals compose as filters do: removing a kid twice is removing it
    once, two removals commute, and a removal never lengthens the set. *)
Theorem removeSigningParams_compose (this : Provider Identity) (kid1 kid2 : string) :
  removeSigningParams (removeSigningParams this kid1) kid1
    = removeSigningParams this kid1
  /\ removeSigningParams (removeSigningParams this kid1) kid2
     = removeSigningParams (removeSigningParams this kid2) kid1
  /\ (length (signing_info_set (removeSigningParams this kid1))
      <= length (signing_info_set this))%nat.
Proof.
  unfold removeSigningParams. cbn [identity signing_info_set].
  set (keep := fun kid (s : SigningInfo) => negb (String.eqb (si_kid s) kid)).
  change (fun s : SigningInfo => negb (String.eqb (si_kid s) kid1)) with (keep kid1).
  change (fun s : SigningInfo => negb (String.eqb (si_kid s) kid2)) with (keep kid2).
  repeat split.
  - f_equal. apply filter_all_kept. intros s Hs. now apply filter_In in Hs.
  - f_equal. induction (signing_info_set this) as [|s l IH]; [reflexivity|].
    cbn [filter]. destruct (keep kid1 s) eqn:E1, (keep kid2 s) eqn:E2;
      cbn [filter]; rewrite ?E1, ?E2, IH; reflexivity.
  - induction (signing_info_set this) as [|s l IH]; cbn [filter length]; [lia|].
    destruct (keep kid1 s); cbn [length]; lia.
Qed.

Lemma random_index_single (draw : Double) :
  is_double draw -> (Double_value draw < 1)%Q -> random_index draw 1 = 0%nat.
Proof.
  intros H0 H1. pose proof (random_index_in_range draw 1 H0 H1). lia.
Qed.

(** On a provider that holds no entry yet, one successful [addSigningParams]
    settles the signing key: with the identity resolved, every later response
    is built with the entry of the kid returned, whatever double of [0, 1)
    is drawn. *)
Theorem first_key_signs_every_response
    (this this' : Provider Identity) (key kid : string)
    (requestPayload : RequestPayload) (expiresIn : option Z) (vps : VPData)
    (draw : Double) :
  signing_info_set this = [] ->
  addSigning this key = (Ok kid, this') ->
  isResolved (identity this) = true ->
  is_double draw -> (Double_value draw < 1)%Q ->
  exists s,
    si_kid s = kid
    /\ signing_info_set this' = [s]
    /\ respond this' requestPayload expiresIn draw =
         DidSiopResponse_generateResponse requestPayload (Some s) (identity this)
           (default_expiresIn expiresIn)
    /\ respondVP this' requestPayload expiresIn vps draw =
         DidSiopResponse_generateResponseWithVPData requestPayload (Some s)
           (identity this) (default_expiresIn expiresIn) vps.
Proof.
  intros Hempty H Hres H0 H1.
  destruct (addSigning_success_inv _ _ _ _ H)
    as (keys & nk & before & k & after & sk & f & rest
        & _ & _ & _ & _ & _ & _ & _ & -> & ->).
  exists (recorded k nk f).
  unfold generateResponse, generateResponseWithVPData.
  cbn [push_signing_info signing_info_set identity]. rewrite Hempty.
  cbn [app length Nat.ltb Nat.leb]. rewrite (random_index_single draw H0 H1), Hres.
  repeat split.
Qed.

(** No entry is out of reach of the selection: for every entry of a set of
    at most 2^52 entries there is a double of [0, 1), the least multiple of
    2^-53 whose exact product with the length reaches the index of the
    entry, for which Math.floor(random * length), computed in doubles, is
    that index. *)
Theorem every_entry_can_be_drawn (this : Provider Identity) (i : nat) (s : SigningInfo) :
  nth_error (signing_info_set this) i = Some s ->
  (Z.of_nat (length (signing_info_set this)) <= 2 ^ 52)%Z ->
  is_double (draw_for i (length (signing_info_set this)))
  /\ (Double_value (draw_for i (length (signing_info_set this))) < 1)%Q
  /\ random_index (draw_for i (length (signing_info_set this)))
       (length (signing_info_set this)) = i
  /\ nth_error (signing_info_set this)
       (random_index (draw_for i (length (signing_info_set this)))
          (length (signing_info_set this))) = Some s.
Proof.
  intros Hnth Hmax.
  assert (Hi : (i < length (signing_info_set this))%nat).
  { apply nth_error_Some. congruence. }
  destruct (draw_for_reaches i _ Hi Hmax) as (Hd & Hv & E).
  split; [exact Hd|]. split; [exact Hv|]. split; [exact E|]. now rewrite E.
Qed.

End ProviderProperties.

(** ** Setting up a Provider *)

Section ProviderSetupProperties.

Variable Identity : Type.
Variable DidDocument : Type.
Variable Resolver : Type.
Variable new_Identity : Identity.
Variable setDocument : Identity -> DidDocument -> string -> Result unit * Identity.
Variable addResolvers : Identity -> list Resolver -> Result unit * Identity.
Variable Identity_resolve : Identity -> string -> Result unit * Identity.
Variable Metadata : Type.
Variable JWTObject : Type.
Variable DidSiopRequest_validateRequest :
  string -> option Metadata -> option (list Resolver) -> Result JWTObject.
Variable isResolved : Identity -> bool.
Variable RequestPayload : Type.
Variable DidSiopResponse_generateResponse :
  RequestPayload -> option SigningInfo -> Identity -> Z -> Result string.

Local Abbreviation set_user := (setUser setDocument addResolvers Identity_resolve).
Local Abbreviation get_provider :=
  (getProvider new_Identity setDocument addResolvers Identity_resolve).
Local Abbreviation validate := (validateRequest DidSiopRequest_validateRequest).

(** [setUser] never touches the signing information.  With a document the
    resolvers passed are dropped: the provider's own list stays as it was.
    Without a document, a non-empty list accepted by the identity replaces the
    provider's own list before the DID is resolved, so it stays replaced when
    the resolution fails; an absent or empty list changes nothing. *)
Theorem setUser_stores_resolvers
    (this : ProviderObject Identity Resolver) (did : string)
    (doc : option DidDocument) (resolvers : option (list Resolver)) :
  signing_info_set (provider_fields (snd (set_user this did doc resolvers)))
    = signing_info_set (provider_fields this)
  /\ (doc <> None ->
        provider_resolvers (snd (set_user this did doc resolvers))
        = provider_resolvers this)
  /\ (forall rs, doc = None -> resolvers = Some rs -> rs <> [] ->
        fst (addResolvers (identity (provider_fields this)) rs) = Ok tt ->
        provider_resolvers (snd (set_user this did doc resolvers)) = rs)
  /\ (doc = None -> resolvers = None \/ resolvers = Some [] ->
        provider_resolvers (snd (set_user this did doc resolvers))
        = provider_resolvers this).
Proof.
  unfold setUser. repeat split.
  - destruct doc as [d|].
    + now destruct (setDocument (identity (provider_fields this)) d did).
    + destruct resolvers as [[|r0 rs]|];
        try now destruct (Identity_resolve (identity (provider_fields this)) did).
      destruct (addResolvers (identity (provider_fields this)) (r0 :: rs)) as [[u|e] i];
        [|reflexivity].
      now destruct (Identity_resolve i did).
  - destruct doc as [d|]; [intros _|congruence].
    now destruct (setDocument (identity (provider_fields this)) d did).
  - intros rs -> -> Hne Hadd. destruct rs as [|r0 rs]; [congruence|].
    destruct (addResolvers (identity (provider_fields this)) (r0 :: rs)) as [[u|e] i];
      [|discriminate].
    now destruct (Identity_resolve i did).
  - intros -> [-> | ->];
      now destruct (Identity_resolve (identity (provider_fields this)) did).
Qed.

Lemma getProvider_inv (did : string) (doc : option DidDocument)
    (resolvers : option (list Resolver)) (p : ProviderObject Identity Resolver) :
  get_provider did doc resolvers = Ok p ->
  p = snd (set_user (new_Provider Resolver new_Identity) did doc resolvers).
Proof.
  unfold getProvider.
  destruct (set_user (new_Provider Resolver new_Identity) did doc resolvers)
    as [[u|e] q]; [|discriminate].
  now intros [= ->].
Qed.

(** What [getProvider] hands out.  The provider holds no signing
    information, so it cannot answer a request yet.  Built from a document, it
    has kept none of the resolvers passed along, and [validateRequest] without
    resolvers of its own hands [undefined] on; built by resolution with a
    non-empty list, it hands that list on.  In both cases an empty list given
    to [validateRequest] counts as none, and a non-empty one takes
    precedence. *)
Theorem getProvider_and_validateRequest
    (did : string) (doc : option DidDocument) (resolvers : option (list Resolver))
    (p : ProviderObject Identity Resolver) :
  get_provider did doc resolvers = Ok p ->
  signing_info_set (provider_fields p) = []
  /\ (forall payload expiresIn draw,
        generateResponse isResolved DidSiopResponse_generateResponse
          (provider_fields p) payload expiresIn draw = Throw NO_SIGNING_INFO)
  /\ (doc <> None ->
        provider_resolvers p = []
        /\ forall request md,
             validate p request md None
             = DidSiopRequest_validateRequest request md None)
  /\ (forall rs, doc = None -> resolvers = Some rs -> rs <> [] ->
        provider_resolvers p = rs
        /\ forall request md,
             validate p request md None
             = DidSiopRequest_validateRequest request md (Some rs))
  /\ (forall request md,
        validate p request md (Some []) = validate p request md None)
  /\ (forall request md rs', rs' <> [] ->
        validate p request md (Some rs')
        = DidSiopRequest_validateRequest request md (Some rs')).
Proof.
  intros H. pose proof (getProvider_inv _ _ _ _ H) as Hp.
  destruct (setUser_stores_resolvers (new_Provider Resolver new_Identity) did doc
              resolvers) as (Hset & Hdoc & Hres & _).
  rewrite <- Hp in Hset, Hdoc, Hres. cbn in Hset.
  split; [exact Hset|]. split; [|split; [|split; [|split]]].
  - intros payload expiresIn draw. unfold generateResponse. now rewrite Hset.
  - intros Hd. specialize (Hdoc Hd). cbn in Hdoc. split; [exact Hdoc|].
    intros request md. unfold validateRequest, resolversToValidate. now rewrite Hdoc.
  - intros rs -> -> Hne.
    assert (Hadd : fst (addResolvers new_Identity rs) = Ok tt).
    { revert H. unfold getProvider, setUser. cbn.
      destruct rs as [|r0 rs]; [congruence|].
      destruct (addResolvers new_Identity (r0 :: rs)) as [[[]|e] i]; [reflexivity|].
      discriminate. }
    specialize (Hres rs eq_refl eq_refl Hne Hadd). split; [exact Hres|].
    intros request md. unfold validateRequest, resolversToValidate. rewrite Hres.
    destruct rs; [congruence|reflexivity].
  - reflexivity.
  - intros request md rs' Hne. unfold validateRequest, resolversToValidate.
    destruct rs'; [congruence|reflexivity].
Qed.

End ProviderSetupProperties.

(** ** From a verification method to the trial of a private key *)

Section ExtractionThenTrial.

Variable toUpperCase : string -> string.
Variable toChecksumAddress : string -> Result string.
Variable getKeyType : option string -> Result KTYS.
Variable getAlgorithm : option string -> Result ALGORITHMS.
Variable format_truthy : KEY_FORMATS -> bool.
Variable KTYS_at : KTYS -> option string.
Variable ALGORITHMS_at : ALGORITHMS -> option string.
Variable Key : Type.
Variable RSAKey_fromKey : KeyInfo -> Result Key.
Variable ECKey_fromKey : KeyInfo -> Result Key.
Variable OKP_fromKey : KeyInfo -> Result Key.
Variable checkKeyPair : Key -> Key + PublicKeyValue -> Suite -> ALGORITHMS -> Result bool.

Local Abbreviation extract :=
  (uniExtractor toUpperCase toChecksumAddress getKeyType getAlgorithm format_truthy).
Local Abbreviation trial :=
  (try_combination KTYS_at ALGORITHMS_at RSAKey_fromKey ECKey_fromKey OKP_fromKey
     checkKeyPair).

(** The recoverable signer and verifier are chosen by the format of the
    extracted key, not by its algorithm.  For a method claimed by the
    EC-recoverable handler: when the key was taken from the Ethereum address,
    the private key is tried with the recoverable suite against the
    checksummed address, and no public key is built; when it was taken from an
    encoded key field (which outranks the address), it is tried with the plain
    EC suite against a public key built from that field, the algorithm handed
    to [checkKeyPair] still being ES256K-R. *)
Theorem recoverable_suite_follows_format
    (m : DidVerificationKeyMethod) (k : DidVerificationKey) (key : string)
    (entry : FormatEntry) :
  accepting_handler toUpperCase m = Some RecoveryMethod2020 ->
  extract m = Ok k ->
  (format k = ETHEREUM_ADDRESS ->
     trial k key entry =
       (privateKey <- ECKey_fromKey (privateKeyInfo_of KTYS_at ALGORITHMS_at k key entry) ;;
        checkKeyPair privateKey (inr (publicKey k)) ES256KRecoverableSuite ES256K_R))
  /\ (format k <> ETHEREUM_ADDRESS ->
        trial k key entry =
          (privateKey <- ECKey_fromKey (privateKeyInfo_of KTYS_at ALGORITHMS_at k key entry) ;;
           publicKey <- ECKey_fromKey (publicKeyInfo_of KTYS_at ALGORITHMS_at k) ;;
           checkKeyPair privateKey (inl publicKey) ECSuite ES256K_R))
  /\ (format k = ETHEREUM_ADDRESS <-> first_populated m = Some FEthereumAddress).
Proof.
  intros Hacc Hex.
  destruct (extract_ok_inv _ _ _ _ _ m k Hex) as (i & t & Hi & Ht & Ho).
  rewrite Hacc in Ho. cbn [handler_outcome] in Ho.
  destruct (fromDifferentFormats_keeps_family _ _ _ _ _ Ho) as (_ & Hk & Ha).
  cbn [initial_holder kty alg] in Hk, Ha.
  split; [|split].
  - intros Hf. unfold try_combination. rewrite Hk, Ha, Hf. reflexivity.
  - intros Hf. unfold try_combination. rewrite Hk, Ha.
    destruct (format k); try reflexivity. congruence.
  - revert Ho. unfold getVerificationKeyFromDifferentFormats.
    destruct (probe toChecksumAddress m (initial_holder i EC ES256K_R))
      as [held|e] eqn:Hp; cbn [bind]; [|discriminate].
    destruct (format_truthy (format held) && truthy_value (publicKey held));
      [|discriminate].
    intros [= <-]. revert Hp. unfold probe, first_populated, probe_priority,
      field_populated, field_value, string_value. cbn [find].
    destruct (publicKeyJwk m); cbn [option_map];
      [intros [= <-]; cbn; split; discriminate|].
    destruct (populated (publicKeyHex m)); cbn [option_map];
      [intros [= <-]; cbn; split; discriminate|].
    destruct (populated (publicKeyBase58 m)); cbn [option_map];
      [intros [= <-]; cbn; split; discriminate|].
    destruct (populated (publicKeyBase64 m)); cbn [option_map];
      [intros [= <-]; cbn; split; discriminate|].
    destruct (populated (publicKeyPem m)); cbn [option_map];
      [intros [= <-]; cbn; split; discriminate|].
    destruct (populated (publicKeyPgp m)); cbn [option_map];
      [intros [= <-]; cbn; split; discriminate|].
    destruct (populated (ethereumAddress m)); cbn [option_map].
    + destruct (toChecksumAddress s) as [c|e]; cbn [bind]; [|discriminate].
      intros [= <-]. cbn. now split.
    + destruct (populated (address m)); cbn [option_map]; [|discriminate].
      intros [= <-]. cbn. split; discriminate.
Qed.

End ExtractionThenTrial.

(** * The properties on concrete inputs *)

(** ** Key extraction *)

(** C1 at [address_method]: the type tag names the secp256k1 suite, the
    Ethereum address decides; the key returned has algorithm ES256K-R. *)
Lemma ethereum_address_yields_ES256K_R_witness :
  (m_type address_method = Some "Secp256k1VerificationKey2018"
   /\ populated (ethereumAddress address_method)
      = Some "0xB9C5714089478a327F09197987f16f9E5d936E8a")
  /\ accepting_handler ascii_toUpperCase address_method = Some RecoveryMethod2020
  /\ sample_extract address_method =
       Ok {| k_id := "did:ethr:0xB9c5#controller"; kty := EC; alg := ES256K_R;
             format := ETHEREUM_ADDRESS;
             publicKey := PKString "0xB9C5714089478a327F09197987f16f9E5d936E8a" |}
  /\ (forall k, sample_extract address_method = Ok k -> kty k = EC /\ alg k = ES256K_R).
Proof.
  split; [split; reflexivity|].
  destruct (ethereum_address_yields_ES256K_R ascii_toUpperCase keep_checksummed
              sample_getKeyType sample_getAlgorithm every_format_truthy address_method
              "0xB9C5714089478a327F09197987f16f9E5d936E8a" eq_refl)
    as (Hclass & Hfirst & Hkey).
  split; [exact (proj2 (Hfirst "Secp256k1VerificationKey2018" eq_refl))|].
  split; [|exact Hclass].
  apply (proj2 (proj2 (Hkey "did:ethr:0xB9c5#controller" "Secp256k1VerificationKey2018"
                         eq_refl eq_refl))
           "0xB9C5714089478a327F09197987f16f9E5d936E8a");
    [reflexivity|reflexivity|discriminate|reflexivity].
Defined.

(** C4 at [rsa_method]: base58 outranks PEM. *)
Lemma type_handlers_probe_by_priority_witness :
  accepting_handler ascii_toUpperCase rsa_method = Some Rsa
  /\ first_populated rsa_method = Some FBase58
  /\ sample_extract rsa_method =
       Ok {| k_id := "did:example:123#rsa"; kty := RSA; alg := RS256;
             format := BASE58; publicKey := PKString "2pju9" |}.
Proof.
  split; [reflexivity|]. split; [reflexivity|].
  destruct (type_handlers_probe_by_priority ascii_toUpperCase keep_checksummed
              sample_getKeyType sample_getAlgorithm every_format_truthy) as [H _].
  destruct (H rsa_method "did:example:123#rsa" Rsa RSA RS256) as (Hf & _ & _);
    [reflexivity|reflexivity|discriminate|reflexivity|].
  apply (Hf FBase58 (PKString "2pju9")); [reflexivity|discriminate|reflexivity].
Defined.

(** C4 as stated fails for handler 5: a GPG-typed method with a hex key is
    not resolved to that key, and with no encoding field at all the failure is
    UNSUPPORTED_PUBLIC_KEY_METHOD, not UNSUPPORTED_KEY_FORMAT. *)
Lemma gpg_handler_does_not_probe :
  accepting_handler ascii_toUpperCase gpg_hex_method = Some Gpg
  /\ first_populated gpg_hex_method = Some FHex
  /\ sample_extract gpg_hex_method = Throw UNSUPPORTED_PUBLIC_KEY_METHOD
  /\ accepting_handler ascii_toUpperCase
       (bare_method (Some "did:example:123#gpg") (Some "GpgVerificationKey2020"))
     = Some Gpg
  /\ first_populated
       (bare_method (Some "did:example:123#gpg") (Some "GpgVerificationKey2020"))
     = None
  /\ sample_extract
       (bare_method (Some "did:example:123#gpg") (Some "GpgVerificationKey2020"))
     = Throw UNSUPPORTED_PUBLIC_KEY_METHOD.
Proof. repeat split; reflexivity. Qed.

(** The PGP slot.  At [rsa_pgp_method], populated in [publicKeyPgp] only,
    the method is refused; at [rsa_pgp_gpg_method] the key returned carries
    the value of [publicKeyGpg]; and where the value of the PEM format is
    falsy the same method is refused. *)
Lemma pgp_slot_takes_the_gpg_field_witness :
  (first_populated rsa_pgp_method = Some FPgpPem
   /\ sample_extract rsa_pgp_method = Throw UNSUPPORTED_KEY_FORMAT)
  /\ (first_populated rsa_pgp_gpg_method = Some FPgpPem
      /\ sample_extract rsa_pgp_gpg_method =
           Ok {| k_id := "did:example:123#pgp"; kty := RSA; alg := RS256;
                 format := PKCS8_PEM;
                 publicKey := PKString "-----BEGIN PGP PUBLIC KEY BLOCK----- mQENBF" |})
  /\ uniExtractor ascii_toUpperCase keep_checksummed sample_getKeyType
       sample_getAlgorithm numbered_format_truthy rsa_pgp_gpg_method
     = Throw UNSUPPORTED_KEY_FORMAT.
Proof.
  split; [split; [reflexivity|]|split; [split; [reflexivity|]|]].
  - apply (pgp_slot_takes_the_gpg_field ascii_toUpperCase keep_checksummed
             sample_getKeyType sample_getAlgorithm every_format_truthy rsa_pgp_method
             "did:example:123#pgp" Rsa RSA RS256);
      [reflexivity|reflexivity|discriminate|reflexivity|reflexivity].
  - apply (pgp_slot_takes_the_gpg_field ascii_toUpperCase keep_checksummed
             sample_getKeyType sample_getAlgorithm every_format_truthy
             rsa_pgp_gpg_method "did:example:123#pgp" Rsa RSA RS256);
      [reflexivity|reflexivity|discriminate|reflexivity|reflexivity].
  - apply (pgp_slot_takes_the_gpg_field ascii_toUpperCase keep_checksummed
             sample_getKeyType sample_getAlgorithm numbered_format_truthy
             rsa_pgp_gpg_method "did:example:123#pgp" Rsa RSA RS256);
      [reflexivity|reflexivity|discriminate|reflexivity|reflexivity].
Defined.

(** C6 on a method without id and on a method of a type no handler knows. *)
Lemma extraction_failures_witness :
  sample_extract address_method_without_id = Throw NO_MATCHING_PUBLIC_KEY
  /\ sample_extract
       (bare_method (Some "did:example:123#agree") (Some "X25519KeyAgreementKey2019"))
     = Throw UNSUPPORTED_PUBLIC_KEY_METHOD.
Proof.
  split.
  - apply (proj1 (extraction_failures ascii_toUpperCase keep_checksummed
                    sample_getKeyType sample_getAlgorithm every_format_truthy
                    address_method_without_id)).
    left. reflexivity.
  - apply (proj2 (extraction_failures ascii_toUpperCase keep_checksummed
                    sample_getKeyType sample_getAlgorithm every_format_truthy
                    (bare_method (Some "did:example:123#agree")
                       (Some "X25519KeyAgreementKey2019")))
             "did:example:123#agree" "X25519KeyAgreementKey2019" eq_refl eq_refl).
    intros h _. destruct h; reflexivity.
Defined.

(** ** The combined resolver *)

(** C3 on a chain whose first resolver rejects, whose second returns
    nothing and whose third answers (the fourth is never called), and on an
    empty chain with a rejecting fallback. *)
Lemma combined_resolver_first_document_witness :
  (exists before r after,
      [rejecting_resolver; empty_resolver; answering_resolver "doc";
       answering_resolver "late"] = before ++ r :: after
      /\ Forall (gives_nothing "did:example:123") before
      /\ resolve r "did:example:123" = Ok (Some "doc")
      /\ [rejecting_resolver; empty_resolver; answering_resolver "doc"]
         = before ++ [r])
  /\ (resolveDidDocumet rejecting_resolver (Build_CombinedDidResolver [])
        "did:example:123"
      = (Throw DOCUMENT_RESOLUTION_ERROR, [rejecting_resolver],
         Build_CombinedDidResolver [rejecting_resolver])
      /\ Forall (gives_nothing "did:example:123") [rejecting_resolver]).
Proof.
  split.
  - exact (proj2 (proj2 (proj2
      (combined_resolver_first_document string (answering_resolver "universal")
         (Build_CombinedDidResolver
            [rejecting_resolver; empty_resolver; answering_resolver "doc";
             answering_resolver "late"])
         (Build_CombinedDidResolver
            [rejecting_resolver; empty_resolver; answering_resolver "doc";
             answering_resolver "late"])
         "did:example:123" (Ok "doc")
         [rejecting_resolver; empty_resolver; answering_resolver "doc"] eq_refl)))).
  - split; [reflexivity|].
    destruct (combined_resolver_first_document string rejecting_resolver
                (Build_CombinedDidResolver [])
                (Build_CombinedDidResolver [rejecting_resolver])
                "did:example:123" (Throw DOCUMENT_RESOLUTION_ERROR)
                [rejecting_resolver] eq_refl) as (_ & _ & _ & _ & _ & H).
    exact H.
Defined.

(** ** The Provider *)

(** C2 on [sample_keys] and the private key "c4873e": the key of type oct
    is no pair under any format, the second key does not check, the third
    and the fourth are both pairs under HEX; the kid returned is the
    third's, and the entry recorded carries the third's ES256K-R and the
    format HEX, the first under which the private key can be built. *)
Lemma addSigningParams_records_first_match_witness :
  fst (toy_addSigningParams fresh_provider "c4873e") = Ok "did:example:123#controller"
  /\ signing_info_set (snd (toy_addSigningParams fresh_provider "c4873e"))
     = [{| si_alg := ES256K_R; si_kid := "did:example:123#controller";
           si_key := "c4873e"; si_format := Member HEX |}]
  /\ identity (snd (toy_addSigningParams fresh_provider "c4873e")) = Some sample_keys.
Proof.
  apply (proj1
    (addSigningParams_records_first_match _ toy_extractAuthenticationKeys
       (fun _ => false) (fun key => Ok key) (fun _ => None) (fun _ => None)
       declared_formats _ toy_fromKey toy_fromKey toy_fromKey toy_checkKeyPair
       fresh_provider "c4873e" "c4873e" sample_keys eq_refl eq_refl)
    [oct_key; other_ec_key] controller_key [second_key]
    [Member PKCS8_PEM; Member PKCS1_PEM] (Member HEX)
    [Member BASE58; Member BASE64; Member JWK; Member ETHEREUM_ADDRESS; Member ADDRESS]).
  - reflexivity.
  - intros k' f' [<-|[<-|[]]] _.
    + intros [].
    + intros (priv & pub & H1 & H2 & H3). cbn in H1, H2.
      destruct f' as [[]|]; try discriminate H1.
      injection H1 as <-. injection H2 as <-. discriminate H3.
  - reflexivity.
  - intros f' [<-|[<-|[]]] (priv & H1 & _); discriminate H1.
  - exists "c4873e". split; reflexivity.
Defined.

Example addSigningParams_sample_run :
  toy_addSigningParams fresh_provider "c4873e" =
    (Ok "did:example:123#controller",
     {| identity := Some sample_keys;
        signing_info_set := [recorded controller_key "c4873e" (Member HEX)] |}).
Proof. reflexivity. Qed.

(** C5 on [sample_keys] and a private key that pairs with none of them. *)
Lemma addSigningParams_no_match_witness :
  toy_addSigningParams fresh_provider "ffff" = (Throw NO_PUBLIC_KEY, fresh_provider).
Proof.
  apply (proj1 (addSigningParams_no_match _ toy_extractAuthenticationKeys
                  (fun _ => false) (fun key => Ok key) (fun _ => None) (fun _ => None)
                  declared_formats _ toy_fromKey toy_fromKey toy_fromKey
                  toy_checkKeyPair fresh_provider "ffff" "ffff" sample_keys
                  eq_refl eq_refl)).
  intros k [<-|[<-|[<-|[<-|[]]]]]; reflexivity.
Defined.

(** C9 on a provider that already holds two entries. *)
Lemma addSigningParams_atomic_witness :
  exists s,
    signing_info_set (snd (toy_addSigningParams loaded_provider "c4873e")) =
      signing_info_set loaded_provider ++ [s]
    /\ si_kid s = "did:example:123#controller".
Proof.
  exact (proj2 (addSigningParams_atomic _ toy_extractAuthenticationKeys
                  (fun _ => false) (fun key => Ok key) (fun _ => None) (fun _ => None)
                  declared_formats _ toy_fromKey toy_fromKey toy_fromKey
                  toy_checkKeyPair loaded_provider "c4873e")).
Defined.

(** C10 on [sample_keys]: the constructors throw for seven of the eight
    formats, and the call still ends in a kid or in NO_PUBLIC_KEY. *)
Lemma trial_failures_are_contained_witness :
  ((exists kid, fst (toy_addSigningParams fresh_provider "c4873e") = Ok kid)
   \/ fst (toy_addSigningParams fresh_provider "c4873e") = Throw NO_PUBLIC_KEY)
  /\ ((exists kid, fst (toy_addSigningParams fresh_provider "ffff") = Ok kid)
      \/ fst (toy_addSigningParams fresh_provider "ffff") = Throw NO_PUBLIC_KEY).
Proof.
  destruct (trial_failures_are_contained _ toy_extractAuthenticationKeys
              (fun _ => false) (fun key => Ok key) (fun _ => None) (fun _ => None)
              declared_formats _ toy_fromKey toy_fromKey toy_fromKey toy_checkKeyPair)
    as [H _].
  split.
  - exact (H fresh_provider "c4873e" "c4873e" sample_keys eq_refl eq_refl).
  - exact (H fresh_provider "ffff" "ffff" sample_keys eq_refl eq_refl).
Defined.

(** C8: removing a kid that no entry has. *)
Lemma removeSigningParams_frame_witness :
  removeSigningParams loaded_provider "did:example:123#absent" = loaded_provider.
Proof.
  apply (proj2 (proj2 (proj2
    (removeSigningParams_frame _ loaded_provider "did:example:123#absent")))).
  intros s [<-|[<-|[]]]; discriminate.
Defined.

Example removeSigningParams_sample_run :
  signing_info_set (removeSigningParams loaded_provider "did:example:123#controller")
  = [earlier_entry].
Proof. reflexivity. Qed.

(** C7 on a resolved provider with two entries and the draw
    0.6666666666666666, and the bounds of the index on a provider with
    three. *)
Lemma generateResponse_requirements_witness :
  (exists s,
      nth_error (signing_info_set loaded_provider)
        (random_index two_thirds (length (signing_info_set loaded_provider))) = Some s
      /\ In s (signing_info_set loaded_provider)
      /\ generateResponse toy_isResolved toy_respond loaded_provider "payload" None
           two_thirds
         = toy_respond "payload" (Some s) (identity loaded_provider) 1000%Z
      /\ generateResponseWithVPData toy_isResolved toy_respondVP loaded_provider "payload"
           None "vps" two_thirds
         = toy_respondVP "payload" (Some s) (identity loaded_provider) 1000%Z "vps")
  /\ (exact_index two_thirds (length (signing_info_set crowded_provider))
        <= random_index two_thirds (length (signing_info_set crowded_provider))
        <= exact_index two_thirds (length (signing_info_set crowded_provider)) + 1)%nat.
Proof.
  split.
  - apply (proj1 (proj2 (proj2
      (generateResponse_requirements _ toy_isResolved _ _ _ toy_respond toy_respondVP
         loaded_provider "payload" None "vps" two_thirds)))).
    + discriminate.
    + reflexivity.
    + unfold is_double. simpl. lia.
    + unfold Qlt. simpl. lia.
  - apply (proj1 (proj2 (proj2 (proj2
      (generateResponse_requirements _ toy_isResolved _ _ _ toy_respond toy_respondVP
         crowded_provider "payload" None "vps" two_thirds))))).
    + discriminate.
    + unfold is_double. simpl. lia.
    + unfold Qlt. simpl. lia.
    + simpl. lia.
Defined.

Example generateResponse_sample_runs :
  generateResponse toy_isResolved toy_respond fresh_provider "payload" None two_thirds
    = Throw NO_SIGNING_INFO
  /\ generateResponse toy_isResolved toy_respond unresolved_provider "payload" None two_thirds
     = Throw UNRESOLVED_IDENTITY
  /\ generateResponse toy_isResolved toy_respond loaded_provider "payload" None two_thirds
     = Ok "did:example:123#controller"
  /\ generateResponse toy_isResolved toy_respond
       (removeSigningParams unresolved_provider "did:example:123#ed") "payload" None
       two_thirds
     = Throw NO_SIGNING_INFO.
Proof. repeat split; reflexivity. Qed.

(** Two products that are rounded up to an integer: 0.6666666666666666 * 3
    is 2 in doubles, and the double nearest to 4/7 times 7 is 4, where the
    exact products are below 2 and below 4.  With three entries the first draw
    selects the third. *)
Example rounded_products_select_the_next_entry :
  random_index two_thirds 3 = 2%nat
  /\ exact_index two_thirds 3 = 1%nat
  /\ random_index four_sevenths 7 = 4%nat
  /\ exact_index four_sevenths 7 = 3%nat
  /\ generateResponse toy_isResolved toy_respond crowded_provider "payload" None two_thirds
     = Ok "did:example:123#rsa".
Proof. repeat split; vm_compute; reflexivity. Qed.

(** ** Further properties, on concrete inputs *)

Lemma extracted_key_is_filled_witness :
  populated (m_id address_method) = Some "did:ethr:0xB9c5#controller"
  /\ truthy_value (PKString "0xB9C5714089478a327F09197987f16f9E5d936E8a") = true.
Proof.
  exact (extracted_key_is_filled ascii_toUpperCase keep_checksummed sample_getKeyType
           sample_getAlgorithm every_format_truthy address_method
           {| k_id := "did:ethr:0xB9c5#controller"; kty := EC; alg := ES256K_R;
              format := ETHEREUM_ADDRESS;
              publicKey := PKString "0xB9C5714089478a327F09197987f16f9E5d936E8a" |}
           eq_refl).
Defined.

Lemma extracted_family_from_handler_witness :
  BASE58 <> PKCS1_PEM
  /\ (accepting_handler ascii_toUpperCase rsa_method <> Some Jws2020 ->
      In (RSA, RS256)
        [(EC, ES256K_R); (EC, ES256); (EC, ES256K); (RSA, RS256); (OKP, EdDSA)])
  /\ (forall h fam,
        accepting_handler ascii_toUpperCase rsa_method = Some h ->
        probing_family h = Some fam -> fam = (RSA, RS256)).
Proof.
  exact (extracted_family_from_handler ascii_toUpperCase keep_checksummed
           sample_getKeyType sample_getAlgorithm every_format_truthy rsa_method
           {| k_id := "did:example:123#rsa"; kty := RSA; alg := RS256;
              format := BASE58; publicKey := PKString "2pju9" |}
           eq_refl).
Defined.

Lemma extraction_ignores_letter_case_witness :
  sample_extract (with_type rsa_method (Some "rsaVERIFICATIONkey2018"))
  = sample_extract (with_type rsa_method (Some "RsaVerificationKey2018")).
Proof.
  apply (extraction_ignores_letter_case ascii_toUpperCase keep_checksummed
           sample_getKeyType sample_getAlgorithm every_format_truthy rsa_method
           "rsaVERIFICATIONkey2018" "RsaVerificationKey2018");
    [discriminate|discriminate|reflexivity].
Defined.

Lemma jws_handler_reads_the_jwk_witness :
  first_populated jws_method = Some FJwk
  /\ sample_extract jws_method =
       Ok {| k_id := "did:example:123#jws"; kty := EC; alg := ES256K; format := JWK;
             publicKey := PKJwk sample_jwk |}.
Proof.
  split; [reflexivity|].
  apply (proj2 (proj2 (proj2
    (jws_handler_reads_the_jwk ascii_toUpperCase keep_checksummed sample_getKeyType
       sample_getAlgorithm every_format_truthy jws_method "did:example:123#jws"
       eq_refl eq_refl))) sample_jwk EC ES256K);
    reflexivity.
Defined.

Lemma recovery_handler_prefers_encoded_key_witness :
  truthy (ethereumAddress address_and_hex_method) = true
  /\ sample_extract address_and_hex_method =
       Ok {| k_id := "did:ethr:0xB9c5#both"; kty := EC; alg := ES256K_R;
             format := HEX; publicKey := PKString "04ab" |}.
Proof.
  split; [reflexivity|].
  apply (recovery_handler_prefers_encoded_key ascii_toUpperCase keep_checksummed
           sample_getKeyType sample_getAlgorithm every_format_truthy
           address_and_hex_method "did:ethr:0xB9c5#both" FHex (PKString "04ab"));
    [reflexivity|reflexivity|reflexivity|discriminate|discriminate|reflexivity].
Defined.

Lemma ascii_names_distinct :
  NoDup (flat_map (fun h => new_names ascii_toUpperCase (handler_names h))
           dispatch_order).
Proof.
  cbv [flat_map dispatch_order handler_names new_names map app].
  repeat (constructor;
          [cbn [In]; intros H;
           repeat (destruct H as [H|H]; [discriminate H|]); exact H|]).
  constructor.
Qed.

Lemma type_tag_names_one_handler_witness :
  accepting_handler ascii_toUpperCase rsa_method = Some Rsa <->
  includes (new_names ascii_toUpperCase (handler_names Rsa))
    (ascii_toUpperCase "rsaverificationkey2018") = true.
Proof.
  apply (type_tag_names_one_handler ascii_toUpperCase ascii_names_distinct rsa_method
           "rsaverificationkey2018" Rsa);
    reflexivity.
Defined.

Lemma appended_resolver_is_last_resort_witness :
  resolveDidDocumet (answering_resolver "universal")
    (addResolver (Build_CombinedDidResolver [rejecting_resolver; answering_resolver "doc"])
       (answering_resolver "late"))
    "did:example:123"
  = (Ok "doc", [rejecting_resolver; answering_resolver "doc"],
     addResolver (Build_CombinedDidResolver [rejecting_resolver; answering_resolver "doc"])
       (answering_resolver "late")).
Proof.
  apply (proj1 (appended_resolver_is_last_resort string (answering_resolver "universal")
                  (Build_CombinedDidResolver
                     [rejecting_resolver; answering_resolver "doc"])
                  (answering_resolver "late") "did:example:123"
                  ltac:(discriminate))
           "doc" [rejecting_resolver; answering_resolver "doc"]
           (Build_CombinedDidResolver [rejecting_resolver; answering_resolver "doc"])).
  reflexivity.
Defined.

Lemma addSigningParams_success_is_checked_witness :
  exists keys nk k f,
    toy_extractAuthenticationKeys (identity fresh_provider) = Ok keys
    /\ normalized (fun _ => false) (fun key => Ok key) "c4873e" = Ok nk
    /\ In k keys /\ In f declared_formats
    /\ toy_trial k nk f = Ok true
    /\ k_id k = "did:example:123#controller"
    /\ (kty k = RSA \/ kty k = EC \/ kty k = OKP)
    /\ signing_info_set (snd (toy_addSigningParams fresh_provider "c4873e")) =
         signing_info_set fresh_provider
         ++ [{| si_alg := alg k; si_kid := "did:example:123#controller"; si_key := nk;
                si_format := f |}].
Proof.
  exact (addSigningParams_success_is_checked _ toy_extractAuthenticationKeys
           (fun _ => false) (fun key => Ok key) (fun _ => None) (fun _ => None)
           declared_formats _ toy_fromKey toy_fromKey toy_fromKey toy_checkKeyPair
           fresh_provider (snd (toy_addSigningParams fresh_provider "c4873e"))
           "c4873e" "did:example:123#controller" eq_refl).
Defined.

Lemma add_then_remove_witness :
  removeSigningParams (snd (toy_addSigningParams fresh_provider "c4873e"))
    "did:example:123#controller"
  = fresh_provider.
Proof.
  apply (proj2 (add_then_remove _ toy_extractAuthenticationKeys
                  (fun _ => false) (fun key => Ok key) (fun _ => None) (fun _ => None)
                  declared_formats _ toy_fromKey toy_fromKey toy_fromKey
                  toy_checkKeyPair fresh_provider
                  (snd (toy_addSigningParams fresh_provider "c4873e"))
                  "c4873e" "did:example:123#controller" eq_refl)).
  intros s [].
Defined.

Lemma add_twice_duplicates_witness :
  exists s,
    si_kid s = "did:example:123#controller"
    /\ snd (toy_addSigningParams fresh_provider "c4873e") = push_signing_info fresh_provider s
    /\ toy_addSigningParams (snd (toy_addSigningParams fresh_provider "c4873e")) "c4873e"
       = (Ok "did:example:123#controller",
          push_signing_info (snd (toy_addSigningParams fresh_provider "c4873e")) s)
    /\ signing_info_set
         (push_signing_info (snd (toy_addSigningParams fresh_provider "c4873e")) s)
       = signing_info_set fresh_provider ++ [s; s]
    /\ signing_info_set
         (removeSigningParams
            (push_signing_info (snd (toy_addSigningParams fresh_provider "c4873e")) s)
            "did:example:123#controller")
       = signing_info_set
           (removeSigningParams fresh_provider "did:example:123#controller").
Proof.
  exact (add_twice_duplicates _ toy_extractAuthenticationKeys
           (fun _ => false) (fun key => Ok key) (fun _ => None) (fun _ => None)
           declared_formats _ toy_fromKey toy_fromKey toy_fromKey toy_checkKeyPair
           fresh_provider (snd (toy_addSigningParams fresh_provider "c4873e"))
           "c4873e" "did:example:123#controller" eq_refl).
Defined.

Lemma first_key_signs_every_response_witness :
  exists s,
    si_kid s = "did:example:123#controller"
    /\ signing_info_set (snd (toy_addSigningParams fresh_provider "c4873e")) = [s]
    /\ generateResponse toy_isResolved toy_respond
         (snd (toy_addSigningParams fresh_provider "c4873e")) "payload" None two_thirds
       = toy_respond "payload" (Some s) (identity fresh_provider) 1000%Z
    /\ generateResponseWithVPData toy_isResolved toy_respondVP
         (snd (toy_addSigningParams fresh_provider "c4873e")) "payload" None "vps" two_thirds
       = toy_respondVP "payload" (Some s) (identity fresh_provider) 1000%Z "vps".
Proof.
  apply (first_key_signs_every_response _ toy_isResolved toy_extractAuthenticationKeys
           (fun _ => false) (fun key => Ok key) (fun _ => None) (fun _ => None)
           declared_formats _ toy_fromKey toy_fromKey toy_fromKey toy_checkKeyPair
           _ _ _ toy_respond toy_respondVP
           fresh_provider (snd (toy_addSigningParams fresh_provider "c4873e"))
           "c4873e" "did:example:123#controller" "payload" None "vps" two_thirds).
  - reflexivity.
  - reflexivity.
  - reflexivity.
  - unfold is_double. simpl. lia.
  - unfold Qlt. simpl. lia.
Defined.

Lemma every_entry_can_be_drawn_witness :
  is_double (draw_for 1 (length (signing_info_set loaded_provider)))
  /\ (Double_value (draw_for 1 (length (signing_info_set loaded_provider))) < 1)%Q
  /\ random_index (draw_for 1 (length (signing_info_set loaded_provider)))
       (length (signing_info_set loaded_provider)) = 1%nat
  /\ nth_error (signing_info_set loaded_provider)
       (random_index (draw_for 1 (length (signing_info_set loaded_provider)))
          (length (signing_info_set loaded_provider)))
     = Some (recorded controller_key "c4873e" (Member HEX)).
Proof.
  apply (every_entry_can_be_drawn _ loaded_provider 1
           (recorded controller_key "c4873e" (Member HEX)) eq_refl).
  simpl. lia.
Defined.

Lemma setUser_stores_resolvers_witness :
  fst (setUser toy_setDocument toy_addResolvers failing_resolve
         (new_Provider string None) "did:example:123" None (Some ["ethr"]))
  = Throw DOCUMENT_RESOLUTION_ERROR
  /\ provider_resolvers
       (snd (setUser toy_setDocument toy_addResolvers failing_resolve
               (new_Provider string None) "did:example:123" None (Some ["ethr"])))
     = ["ethr"].
Proof.
  split; [reflexivity|].
  apply (proj1 (proj2 (proj2
    (setUser_stores_resolvers _ _ _ toy_setDocument toy_addResolvers failing_resolve
       (new_Provider string None) "did:example:123" None (Some ["ethr"]))))
    ["ethr"]);
    [reflexivity|reflexivity|discriminate|reflexivity].
Defined.

Lemma getProvider_and_validateRequest_witness :
  (exists p,
      getProvider None toy_setDocument toy_addResolvers working_resolve
        "did:example:123" (Some sample_keys) (Some ["ethr"]) = Ok p
      /\ provider_resolvers p = []
      /\ validateRequest echo_validateRequest p "request" None None = Ok None)
  /\ (exists p,
        getProvider None toy_setDocument toy_addResolvers working_resolve
          "did:example:123" None (Some ["ethr"]) = Ok p
        /\ provider_resolvers p = ["ethr"]
        /\ validateRequest echo_validateRequest p "request" None None
           = Ok (Some ["ethr"])).
Proof.
  split.
  - eexists. split; [reflexivity|].
    destruct (getProvider_and_validateRequest _ _ _ None toy_setDocument
                toy_addResolvers working_resolve _ _ echo_validateRequest
                toy_isResolved _ toy_respond
                "did:example:123" (Some sample_keys) (Some ["ethr"]) _ eq_refl)
      as (_ & _ & H & _).
    destruct (H ltac:(discriminate)) as [H1 H2]. split; [exact H1|].
    exact (H2 "request" None).
  - eexists. split; [reflexivity|].
    destruct (getProvider_and_validateRequest _ _ _ None toy_setDocument
                toy_addResolvers working_resolve _ _ echo_validateRequest
                toy_isResolved _ toy_respond
                "did:example:123" None (Some ["ethr"]) _ eq_refl)
      as (_ & _ & _ & H & _).
    destruct (H ["ethr"] eq_refl eq_refl ltac:(discriminate)) as [H1 H2].
    split; [exact H1|]. exact (H2 "request" None).
Defined.

Lemma recoverable_suite_follows_format_witness :
  toy_trial
    {| k_id := "did:ethr:0xB9c5#both"; kty := EC; alg := ES256K_R; format := HEX;
       publicKey := PKString "04ab" |} "c4873e" (Member HEX)
  = toy_checkKeyPair "c4873e" (inl "04ab") ECSuite ES256K_R.
Proof.
  apply (proj1 (proj2
    (recoverable_suite_follows_format ascii_toUpperCase keep_checksummed
       sample_getKeyType sample_getAlgorithm every_format_truthy
       (fun _ => None) (fun _ => None) _ toy_fromKey toy_fromKey toy_fromKey
       toy_checkKeyPair address_and_hex_method
       {| k_id := "did:ethr:0xB9c5#both"; kty := EC; alg := ES256K_R; format := HEX;
          publicKey := PKString "04ab" |} "c4873e" (Member HEX)
       eq_refl eq_refl))).
  discriminate.
Defined.
